(** * additional_statistics.py: a shallow embedding

    The script [workflow/scripts/additional_statistics.py] walks a list of
    result directories, loads for each one a pathway edge list and two count
    tables, and emits three records per perturbed gene.  The embedding below
    follows the script line by line.  The calls into pandas and networkx
    are modelled by small executable definitions that reproduce the
    documented behaviour of the call as the script issues it (default
    arguments included).  What natsort, seaborn and matplotlib do with the
    arguments the script hands them is not modelled: like the file system,
    the plotting stack belongs to the outside world, which decides whether
    a call raises.

    Numbers are idealised: a float64 is an exact rational, the missing value
    NaN, or the square root of a rational.  Rounding is not modelled. *)

From Stdlib Require Import Ascii String QArith Qcanon.
From stdpp Require Import base option list strings gmap sets.

Open Scope string_scope.
Open Scope list_scope.
Open Scope nat_scope.

Set Warnings "-clear-no-such-hyp".

(** ** Exceptions and the result monad *)

Module Py.

(** The exceptions the script can let escape. *)
Inductive exn : Type :=
  | ValueError                       (* star-unpacking of a short list *)
  | FileNotFoundError (path : string)
  | KeyError (key : string)
  | InvalidIndexError                (* reindexing a non-unique index *)
  | OSError (what : string)          (* a failure of the outside world *)
  | PlotError.                       (* raised inside the plotting stack *)

Inductive result (A : Type) : Type :=
  | Ok (a : A)
  | Raise (e : exn).
Arguments Ok {A} a.
Arguments Raise {A} e.

Definition bind {A B} (m : result A) (k : A → result B) : result B :=
  match m with
  | Ok a => k a
  | Raise e => Raise e
  end.

Definition is_ok {A} (m : result A) : bool :=
  match m with Ok _ => true | Raise _ => false end.

(** [for x in xs: body], the loop body updating a state; an exception
    leaves the loop at once. *)
Fixpoint for_ {A S} (xs : list A) (body : A → S → result S) (s : S)
    : result S :=
  match xs with
  | [] => Ok s
  | x :: xs' =>
      match body x s with
      | Ok s' => for_ xs' body s'
      | Raise e => Raise e
      end
  end.

End Py.

Import Py.

#[global] Instance result_ret : MRet result := @Ok.
#[global] Instance result_bind : MBind result :=
  fun A B k m => Py.bind m k.

(** ** Strings *)

Module Str.

(** [s.split(sep)] for a one-character separator: the pieces between the
    occurrences of [sep], empty pieces included; never the empty list. *)
Fixpoint split (sep : ascii) (s : string) : list string :=
  match s with
  | EmptyString => [EmptyString]
  | String c rest =>
      if Ascii.eqb c sep then EmptyString :: split sep rest
      else match split sep rest with
           | [] => [String c EmptyString]
           | w :: ws => String c w :: ws
           end
  end.

(** [sep.join(pieces)]. *)
Fixpoint join (sep : ascii) (pieces : list string) : string :=
  match pieces with
  | [] => EmptyString
  | [w] => w
  | w :: ws => w ++ String sep (join sep ws)
  end.

(** Number of occurrences of a character. *)
Fixpoint count (c : ascii) (s : string) : nat :=
  match s with
  | EmptyString => 0
  | String d rest => (if Ascii.eqb d c then 1 else 0) + count c rest
  end.

End Str.

(** ** Parsing a result directory (lines 21-22) *)

Record dir_fields : Type := DirFields {
  pathway : string;
  gene : string;
  study : string;
  treatment : string;
  deconf_param : string
}.

(** [*_, pathway, gene, study, treatment, deconf_param = segments]:
    the last five items, ValueError when there are fewer than five. *)
Definition unpack_last5 (segments : list string) : result dir_fields :=
  match rev segments with
  | e :: d :: c :: b :: a :: _ => Ok (DirFields a b c d e)
  | _ => Raise ValueError
  end.

Definition parse_dir (dir_ : string) : result dir_fields :=
  unpack_last5 (Str.split "/" dir_).

Definition gene_list (f : dir_fields) : list string :=
  Str.split "," (gene f).

(** ** Numbers *)

(** An idealised float64. [Sqrt q] stands for the positive square root of a
    rational [q] that is not itself the square of a rational; [np_sqrt]
    below returns [Num] whenever the root is rational, so two numbers are
    equal exactly when they are the same term. *)
Inductive number : Type :=
  | NaN
  | Num (q : Qc)
  | Sqrt (q : Qc).

Definition of_Z (z : Z) : Qc := Q2Qc (inject_Z z).
Definition of_nat (n : nat) : Qc := of_Z (Z.of_nat n).

Definition is_square (z : Z) : bool := (Z.sqrt z * Z.sqrt z =? z)%Z.

(** [np.sqrt]: NaN below zero. *)
Definition np_sqrt (q : Qc) : number :=
  let n := Qnum (this q) in
  let d := Zpos (Qden (this q)) in
  if (n <? 0)%Z then NaN
  else if is_square n && is_square d
       then Num (Q2Qc (Z.sqrt n # Z.to_pos (Z.sqrt d)))
       else Sqrt q.

(** A cell of a count table: a number, or missing. *)
Definition cell : Type := option Qc.

Definition qsum (xs : list Qc) : Qc := foldr Qcplus 0%Qc xs.

(** *** The reductions [Series.mean()] and [Series.std()]

    Both are called without arguments, hence with [skipna=True] and, for
    [std], [ddof=1].  The definitions follow pandas' masked reductions:
    the missing entries are counted out and contribute 0 to the sums. *)

Definition notna_count (values : list cell) : nat :=
  length (filter is_Some values).

Definition fill0 (c : cell) : Qc := default 0%Qc c.

Definition nanmean (values : list cell) : number :=
  let count := notna_count values in
  let the_sum := qsum (fill0 <$> values) in
  if (count =? 0)%nat then NaN else Num (the_sum / of_nat count)%Qc.

Definition nanvar (ddof : nat) (values : list cell) : number :=
  let count := notna_count values in
  if (count <=? ddof)%nat then NaN
  else
    let avg := (qsum (fill0 <$> values) / of_nat count)%Qc in
    let sqr := (fun c : cell =>
                  match c with
                  | Some x => ((avg - x) * (avg - x))%Qc
                  | None => 0%Qc
                  end) <$> values in
    Num (qsum sqr / of_nat (count - ddof))%Qc.

Definition nanstd (ddof : nat) (values : list cell) : number :=
  match nanvar ddof values with
  | Num v => np_sqrt v
  | other => other
  end.

(** ** Count tables *)

(** A table read with [index_col=0]: column names and labelled rows.  Row
    labels are strings and may repeat. *)
Record frame : Type := Frame {
  columns : list string;
  rows : list (string * list cell)
}.

Definition index (f : frame) : list string := fst <$> rows f.

(** The row of a label in a frame with unique labels, all-missing when the
    label is absent (what reindexing to a larger index produces). *)
Definition reindex_row (f : frame) (label : string) : list cell :=
  match list_find (fun r => r.1 = label) (rows f) with
  | Some (_, r) => r.2
  | None => replicate (length (columns f)) None
  end.

(** [pd.concat([a, b], axis=1)]: side by side on the union of the row
    labels.  Equal indexes are pasted row by row; otherwise both frames are
    reindexed, which pandas refuses for an index with repeated labels. *)
Definition concat_axis1 (a b : frame) : result frame :=
  if decide (index a = index b) then
    Ok (Frame (columns a ++ columns b)
              (zip_with (fun ra rb => (ra.1, ra.2 ++ rb.2)) (rows a) (rows b)))
  else if bool_decide (NoDup (index a)) && bool_decide (NoDup (index b)) then
    let labels :=
      index a ++ filter (fun l => l ∉ index a) (index b) in
    Ok (Frame (columns a ++ columns b)
              ((fun l => (l, reindex_row a l ++ reindex_row b l)) <$> labels))
  else Raise InvalidIndexError.

(** What [df.loc[g]] returns. *)
Inductive selection : Type :=
  | Series (values : list cell)
  | SubFrame (width : nat) (body : list (list cell)).

(** [df.loc[g]]: KeyError for an absent label, the row for a label that
    occurs once, the sub-table of its rows for a repeated label. *)
Definition loc (df : frame) (g : string) : result selection :=
  match filter (fun r => r.1 = g) (rows df) with
  | [] => Raise (KeyError g)
  | [r] => Ok (Series r.2)
  | rs => Ok (SubFrame (length (columns df)) (snd <$> rs))
  end.

(** ** Python values, records and the result table *)

Inductive pyval : Type :=
  | VStr (s : string)
  | VInt (z : Z)
  | VFloat (x : number)
  | VSeries (xs : list number).

Definition column_of (j : nat) (body : list (list cell)) : list cell :=
  (fun r => default None (r !! j)) <$> body.

(** [.mean()] and [.std()] on a selection; on a sub-table they reduce each
    column and return a Series. *)
Definition sel_mean (s : selection) : pyval :=
  match s with
  | Series values => VFloat (nanmean values)
  | SubFrame w body => VSeries ((fun j => nanmean (column_of j body)) <$> seq 0 w)
  end.

Definition sel_std (s : selection) : pyval :=
  match s with
  | Series values => VFloat (nanstd 1 values)
  | SubFrame w body => VSeries ((fun j => nanstd 1 (column_of j body)) <$> seq 0 w)
  end.

(** A dict literal, keys in insertion order. *)
Definition dict : Type := list (string * pyval).

Fixpoint dict_get (d : dict) (k : string) : option pyval :=
  match d with
  | [] => None
  | (k', v) :: d' => if decide (k' = k) then Some v else dict_get d' k
  end.

(** The table [pd.DataFrame(records)] builds from a list of dicts. *)
Record DataFrame : Type := MkDataFrame {
  df_columns : list string;
  df_data : list (list pyval)
}.

(** Column labels: the keys of the dicts in order of first appearance. *)
Definition keys_union (records : list dict) : list string :=
  foldl (fun acc (d : dict) =>
           foldl (fun acc (kv : string * pyval) =>
                    if decide (kv.1 ∈ acc) then acc else acc ++ [kv.1])
                 acc d)
        [] records.

Definition is_numeric (v : pyval) : bool :=
  match v with VInt _ | VFloat _ => true | _ => false end.
Definition is_float (v : pyval) : bool :=
  match v with VFloat _ => true | _ => false end.
Definition to_float (v : pyval) : pyval :=
  match v with VInt z => VFloat (Num (of_Z z)) | _ => v end.

(** Column type inference: a column holding only integers and floats, with
    at least one float, is stored as float64. *)
Definition upcast (body : list (list pyval)) (width : nat) : list (list pyval) :=
  let col j := (fun r => default (VFloat NaN) (r !! j)) <$> body in
  let floating j := forallb is_numeric (col j) && existsb is_float (col j) in
  let flags := floating <$> seq 0 width in
  (fun r => zip_with (fun (fl : bool) v => if fl then to_float v else v) flags r)
    <$> body.

Definition DataFrame_of_records (records : list dict) : DataFrame :=
  let cols := keys_union records in
  let body :=
    (fun d => (fun c => default (VFloat NaN) (dict_get d c)) <$> cols)
      <$> records in
  MkDataFrame cols (upcast body (length cols)).

(** A CSV document: the header line and the data lines, cell by cell. *)
Record csv : Type := MkCsv {
  csv_header : list string;
  csv_lines : list (list pyval)
}.

(** [df.to_csv(fname, index=...)]. With [index=True] an unnamed first
    column carries the row numbers. *)
Definition to_csv (df : DataFrame) (with_index : bool) : csv :=
  if with_index then
    MkCsv (EmptyString :: df_columns df)
          (imap (fun i r => VInt (Z.of_nat i) :: r) (df_data df))
  else MkCsv (df_columns df) (df_data df).

(** ** The pathway graph *)

(** A table read without index column, column by column. *)
Definition edge_frame : Type := list (string * list string).

(** [df[name]]: the first column of that name, KeyError when there is none. *)
Fixpoint getitem (df : edge_frame) (name : string) : result (list string) :=
  match df with
  | [] => Raise (KeyError name)
  | (c, values) :: df' => if decide (c = name) then Ok values else getitem df' name
  end.

(** An undirected [nx.Graph]: every node with the set of its neighbours. *)
Abbreviation Graph := (gmap string (gset string)).

Definition neighbours (G : Graph) (n : string) : gset string :=
  default ∅ (G !! n).

(** [G.add_edge(u, v)]. *)
Definition add_edge (G : Graph) (u v : string) : Graph :=
  let G1 := <[u := {[v]} ∪ neighbours G u]> G in
  <[v := {[u]} ∪ neighbours G1 v]> G1.

(** [G.add_edges_from(edges)]. *)
Definition add_edges_from (G : Graph) (edges : list (string * string)) : Graph :=
  foldl (fun G e => add_edge G e.1 e.2) G edges.

(** [nx.from_pandas_edgelist(df, source, target)]: only the two named
    columns are read. *)
Definition from_pandas_edgelist (df : edge_frame) (source target : string)
    : result Graph :=
  s ← getitem df source;
  t ← getitem df target;
  Ok (add_edges_from ∅ (zip s t)).

(** [g in graph]. *)
Definition has_node (G : Graph) (g : string) : bool :=
  bool_decide (is_Some (G !! g)).

(** [graph.degree[g]]: the number of neighbours, a self-loop counted twice;
    KeyError for a string that is not a node. *)
Definition degree (G : Graph) (g : string) : result Z :=
  match G !! g with
  | Some nbrs =>
      Ok (Z.of_nat (size nbrs) + (if bool_decide (g ∈ nbrs) then 1 else 0))%Z
  | None => Raise (KeyError g)
  end.

(** ** The files *)

(** The input files as pandas reads them: what [pd.read_csv(path)] and
    [pd.read_csv(path, index_col=0)] return for the paths that exist. *)
Record filesystem : Type := FS {
  plain : gmap string edge_frame;
  indexed : gmap string frame
}.

Definition read_csv (fs : filesystem) (path : string) : result edge_frame :=
  match plain fs !! path with
  | Some df => Ok df
  | None => Raise (FileNotFoundError path)
  end.

Definition read_csv_index_col0 (fs : filesystem) (path : string) : result frame :=
  match indexed fs !! path with
  | Some df => Ok df
  | None => Raise (FileNotFoundError path)
  end.

Definition pathway_fname (f : dir_fields) : string :=
  "results/pathways/csv_files/" ++ pathway f ++ ".csv".
Definition data_wt_fname (f : dir_fields) : string :=
  "resources/data/" ++ study f ++ "/Counts_Ctrl_" ++ treatment f ++ ".csv".
Definition data_mt_fname (f : dir_fields) : string :=
  "resources/data/" ++ study f ++ "/Counts_" ++ gene f ++ "_" ++ treatment f
  ++ ".csv".

(** ** read_data (lines 17-59) *)

(** [graph.degree[g] if g in graph else np.nan] (line 42). *)
Definition degree_value (graph : Graph) (g : string) : result pyval :=
  if has_node graph g then d ← degree graph g; Ok (VInt d)
  else Ok (VFloat NaN).

Definition record (type_ gene_ source_ : string) (value : pyval) : dict :=
  [("type", VStr type_); ("gene", VStr gene_); ("source", VStr source_);
   ("value", value)].

(** The list literal of lines 37-56, evaluated left to right. *)
Definition gene_records (f : dir_fields) (graph : Graph) (df : frame)
    (g : string) : result (list dict) :=
  deg ← degree_value graph g;
  row_mean ← loc df g;
  let mean := sel_mean row_mean in
  row_std ← loc df g;
  let std := sel_std row_std in
  Ok [ record "pathway_degree" (gene f) (pathway f ++ " -- " ++ g) deg;
       record "expression_count_mean" (gene f) (treatment f ++ " -- " ++ g) mean;
       record "expression_count_std" (gene f) (treatment f ++ " -- " ++ g) std ].

(** Lines 28-32. *)
Definition load_graph (fs : filesystem) (f : dir_fields) : result Graph :=
  edges ← read_csv fs (pathway_fname f);
  from_pandas_edgelist edges "source" "sink".

Definition load_counts (fs : filesystem) (f : dir_fields) : result frame :=
  df_wt ← read_csv_index_col0 fs (data_wt_fname f);
  df_mt ← read_csv_index_col0 fs (data_mt_fname f);
  concat_axis1 df_wt df_mt.

(** One turn of the outer loop (lines 20-57). *)
Definition dir_body (fs : filesystem) (dir_ : string) (tmp : list dict)
    : result (list dict) :=
  f ← parse_dir dir_;
  graph ← load_graph fs f;
  df ← load_counts fs f;
  for_ (gene_list f)
       (fun g tmp => recs ← gene_records f graph df g; Ok (tmp ++ recs))
       tmp.

(** The accumulated list [tmp] at the end of the loop. *)
Definition read_records (fs : filesystem) (dir_list : list string)
    : result (list dict) :=
  for_ dir_list (dir_body fs) [].

Definition read_data (fs : filesystem) (dir_list : list string)
    : result DataFrame :=
  tmp ← read_records fs dir_list;
  Ok (DataFrame_of_records tmp).

(** ** main (lines 62-128) *)

(** What the script asks of the world outside it: the three kinds of
    write, and the call into the plotting stack behind one figure.
    [Boxplot data hue genes] stands for the call
    [sns.boxplot(data=data, x='gene', y='value', order=natsorted(genes.unique()))],
    with [hue='treatment'] and [hue_order=['1', '2', '3']] when [hue] is
    set, and for the matplotlib calls that follow it up to [plt.savefig].
    natsort, seaborn and matplotlib are not part of the script: whether
    such a call raises on its arguments is for the outside world to say. *)
Inductive event : Type :=
  | MkDir (path : string)
  | WriteCsv (fname : string) (content : csv)
  | SaveFig (path : string)
  | Boxplot (data : DataFrame) (hue : bool) (genes : list pyval).

(** A run threads the trace of the writes done so far; an exception ends
    the run and leaves the trace as it is. *)
Definition io (A : Type) : Type := list event → list event * result A.

Definition io_ret {A} (a : A) : io A := fun tr => (tr, Ok a).

Definition io_bind {A B} (m : io A) (k : A → io B) : io B :=
  fun tr =>
    match m tr with
    | (tr', Ok a) => k a tr'
    | (tr', Raise e) => (tr', Raise e)
    end.

Definition lift {A} (r : result A) : io A := fun tr => (tr, r).

(** A write either happens, and is appended to the trace, or is refused by
    the outside world (disk, permissions, plotting backend). *)
Definition perform (refuses : event → bool) (e : event) : io unit :=
  fun tr =>
    if refuses e then (tr, Raise (OSError "refused")) else (tr ++ [e], Ok tt).

(** A call into the plotting stack writes nothing: it returns, or it
    raises and ends the run. *)
Definition draw (refuses : event → bool) (e : event) : io unit :=
  fun tr => if refuses e then (tr, Raise PlotError) else (tr, Ok tt).

(** [df[name]] on the result table. *)
Definition df_getitem (df : DataFrame) (name : string) : result (list pyval) :=
  match list_find (fun c => c = name) (df_columns df) with
  | Some (j, _) => Ok ((fun r => default (VFloat NaN) (r !! j)) <$> df_data df)
  | None => Raise (KeyError name)
  end.

Definition is_str (s : string) (v : pyval) : bool :=
  match v with VStr s' => bool_decide (s' = s) | _ => false end.

(** [df[df['type'] == type_]]. *)
Definition filter_type (df : DataFrame) (type_ : string) : result DataFrame :=
  types ← df_getitem df "type";
  Ok (MkDataFrame (df_columns df)
        (snd <$> filter (fun tr => is_str type_ tr.1) (zip types (df_data df)))).

(** ** The data behind the plots (lines 72-76, 87-95, 109-117) *)

(** [s.split(sep)] for a non-empty separator string: the pieces between
    the non-overlapping occurrences of [sep], found from the left.  [skip]
    counts the characters of a separator just matched that are still to
    be passed over. *)
Fixpoint split_str_aux (sep : string) (skip : nat) (s : string) : list string :=
  match s with
  | EmptyString => [EmptyString]
  | String c rest =>
      match skip with
      | S k => split_str_aux sep k rest
      | O =>
          if String.prefix sep s
          then EmptyString :: split_str_aux sep (String.length sep - 1) rest
          else match split_str_aux sep 0 rest with
               | [] => [String c EmptyString]
               | w :: ws => String c w :: ws
               end
      end
  end.

Definition split_str (sep s : string) : list string := split_str_aux sep 0 s.

(** One cell of [x['source'].str.split(' -- ').str[0]]; a cell that is not
    a string gives a missing value.  pandas reads a pattern of more than
    one character as a regular expression; [' -- '] has no special
    character, so the split is the literal one. *)
Definition treatment_of_source (v : pyval) : pyval :=
  match v with
  | VStr s =>
      match split_str " -- " s with
      | w :: _ => VStr w
      | [] => VFloat NaN
      end
  | _ => VFloat NaN
  end.

(** [data.assign(treatment=lambda x: x['source'].str.split(' -- ').str[0])]
    on a table without a treatment column: the new column comes last. *)
Definition assign_treatment (data : DataFrame) : result DataFrame :=
  src ← df_getitem data "source";
  Ok (MkDataFrame (df_columns data ++ ["treatment"])
        (zip_with (λ row s, row ++ [treatment_of_source s]) (df_data data) src)).

(** The [data=] argument of the three boxplot calls. *)
Definition plot_data (df : DataFrame) (type_ : string) (hue : bool)
    : result DataFrame :=
  data ← filter_type df type_;
  if hue then assign_treatment data else Ok data.

(** [Series.unique()]: the distinct values in order of first appearance. *)
Fixpoint unique (seen values : list string) : list string :=
  match values with
  | [] => []
  | v :: values' =>
      if decide (v ∈ seen) then unique seen values'
      else v :: unique (v :: seen) values'
  end.

(** ** The three figures (lines 71-128) *)

(** The arguments of one [sns.boxplot] call of the script, evaluated in the
    order Python evaluates keyword arguments: [data=] first, [order=]
    last.  A column the script itself looks up and does not find is a
    KeyError of the script. *)
Definition boxplot_args (df : DataFrame) (type_ : string) (hue : bool)
    : result event :=
  data ← plot_data df type_ hue;
  genes ← df_getitem df "gene";
  Ok (Boxplot data hue genes).

(** One [sns.boxplot] call: the arguments are evaluated, then the plotting
    stack is called with them and may raise. *)
Definition boxplot (refuses : event → bool) (df : DataFrame)
    (type_ : string) (hue : bool) : io unit :=
  io_bind (lift (boxplot_args df type_ hue)) (draw refuses).

Definition figure (refuses : event → bool) (df : DataFrame)
    (type_ : string) (hue : bool) (path : string) : io unit :=
  io_bind (boxplot refuses df type_ hue) (fun _ =>
  perform refuses (SaveFig path)).

Definition degrees_pdf (out_dir : string) : string := out_dir ++ "/degrees.pdf".
Definition counts_mean_pdf (out_dir : string) : string :=
  out_dir ++ "/counts_mean.pdf".
Definition counts_std_pdf (out_dir : string) : string :=
  out_dir ++ "/counts_std.pdf".

Definition main (refuses : event → bool) (fs : filesystem)
    (dir_list : list string) (fname out_dir : string) : io unit :=
  io_bind (perform refuses (MkDir out_dir)) (fun _ =>
  io_bind (lift (read_data fs dir_list)) (fun df =>
  io_bind (perform refuses (WriteCsv fname (to_csv df false))) (fun _ =>
  io_bind (figure refuses df "pathway_degree" false (degrees_pdf out_dir)) (fun _ =>
  io_bind (figure refuses df "expression_count_mean" true
             (counts_mean_pdf out_dir)) (fun _ =>
  figure refuses df "expression_count_std" true (counts_std_pdf out_dir)))))).

Definition three_pdfs (out_dir : string) : list string :=
  [degrees_pdf out_dir; counts_mean_pdf out_dir; counts_std_pdf out_dir].

(** An outside world that refuses to save one figure and nothing else. *)
Definition refuses_fig (path : string) (e : event) : bool :=
  match e with
  | SaveFig p => bool_decide (p = path)
  | _ => false
  end.


(** The same plotting stack with a file system that saves no figure. *)
Definition no_figures (fails : DataFrame → bool → list pyval → bool)
    (e : event) : bool :=
  match e with
  | Boxplot data hue genes => fails data hue genes
  | SaveFig _ => true
  | _ => false
  end.

(** The steps of a list up to the first one the outside world refuses. *)
Fixpoint accepted (refuses : event → bool) (steps : list event)
    : list event :=
  match steps with
  | [] => []
  | e :: rest => if refuses e then [] else e :: accepted refuses rest
  end.

(** The output files of a trace. *)
Definition written_csv (tr : list event) : list (string * csv) :=
  omap (fun e => match e with WriteCsv f c => Some (f, c) | _ => None end) tr.
Definition written_pdf (tr : list event) : list string :=
  omap (fun e => match e with SaveFig p => Some p | _ => None end) tr.

(** ** Reference definitions

    What the specification talks about, written independently of the code
    above; the theorems compare the two. *)

(** The non-missing entries of a row. *)
Definition dropna (values : list cell) : list Qc := omap id values.

(** Arithmetic mean of the non-missing entries. *)
Definition mean_of_present (values : list cell) : number :=
  match dropna values with
  | [] => NaN
  | xs => Num (qsum xs / of_nat (length xs))%Qc
  end.

(** Sample variance (divisor n-1) of the non-missing entries. *)
Definition sample_variance (xs : list Qc) : Qc :=
  let m := (qsum xs / of_nat (length xs))%Qc in
  (qsum ((fun x => (x - m) * (x - m)) <$> xs) / of_nat (length xs - 1))%Qc.

Definition sample_std_of_present (values : list cell) : number :=
  let xs := dropna values in
  if (length xs <? 2)%nat then NaN else np_sqrt (sample_variance xs).

(** The other ends of the edges at [n] in an edge list. *)
Definition ends_of (edges : list (string * string)) (n : string) : list string :=
  flat_map (fun e : string * string =>
              (if decide (e.1 = n) then [e.2] else [])
              ++ (if decide (e.2 = n) then [e.1] else []))
           edges.

(** A dict built by the record literal of lines 38-55. *)
Definition is_record (r : dict) : Prop :=
  ∃ type_ gene_ source_ value, r = record type_ gene_ source_ value.

Definition record_keys : list string := ["type"; "gene"; "source"; "value"].

(** The cell of a record under a key, as the table has it. *)
Definition cell_of (r : dict) (k : string) : pyval :=
  default (VFloat NaN) (dict_get r k).

(** Whether the value column of the table is stored as float64. *)
Definition value_is_float (tmp : list dict) : bool :=
  forallb is_numeric ((λ r, cell_of r "value") <$> tmp)
  && existsb is_float ((λ r, cell_of r "value") <$> tmp).

Definition table_row (as_float : bool) (r : dict) : list pyval :=
  [ cell_of r "type"; cell_of r "gene"; cell_of r "source";
    if as_float then to_float (cell_of r "value") else cell_of r "value" ].

(** The gene segment of a directory that parses. *)
Definition gene_label (dir_ : string) : string :=
  match parse_dir dir_ with
  | Ok f => gene f
  | Raise _ => EmptyString
  end.

(** The records one directory contributes. *)
Definition dir_records (fs : filesystem) (dir_ : string) : result (list dict) :=
  dir_body fs dir_ [].

(** The work a run does: one job per gene symbol of every directory that
    parses and loads. *)
Definition job : Type := dir_fields * Graph * frame * string.

Definition jobs_of_dir (fs : filesystem) (dir_ : string) : list job :=
  match parse_dir dir_ with
  | Ok f =>
      match load_graph fs f, load_counts fs f with
      | Ok graph, Ok df => (fun g => (f, graph, df, g)) <$> gene_list f
      | _, _ => []
      end
  | Raise _ => []
  end.

Definition jobs (fs : filesystem) (dir_list : list string) : list job :=
  flat_map (jobs_of_dir fs) dir_list.

Definition run_job (j : job) : result (list dict) :=
  let '(f, graph, df, g) := j in gene_records f graph df g.

(** Number of gene symbols named by a directory: one more than the commas
    of its gene segment. *)
Definition gene_symbols (dir_ : string) : nat :=
  match parse_dir dir_ with
  | Ok f => S (Str.count "," (gene f))
  | Raise _ => 0
  end.

Definition total_gene_symbols (dir_list : list string) : nat :=
  sum_list (gene_symbols <$> dir_list).

Definition type_of (r : dict) : option pyval := dict_get r "type".
Definition value_of (r : dict) : option pyval := dict_get r "value".

Definition three_types : list pyval :=
  [VStr "pathway_degree"; VStr "expression_count_mean";
   VStr "expression_count_std"].

(** ** Sample inputs *)

Definition q (z : Z) : cell := Some (of_Z z).

(** The scenario of the specification: one edge GeneX-GeneY and the row
    GeneX = 1, 2, 3 in both count files. *)
Definition scenario_fs : filesystem :=
  FS {[ "results/pathways/csv_files/PathwayA.csv" :=
          [("source", ["GeneX"]); ("sink", ["GeneY"])] ]}
     ({[ "resources/data/Study1/Counts_Ctrl_1.csv" :=
           Frame ["s1"; "s2"; "s3"] [("GeneX", [q 1; q 2; q 3])] ]}
      ∪ {[ "resources/data/Study1/Counts_GeneX_1.csv" :=
           Frame ["s4"; "s5"; "s6"] [("GeneX", [q 1; q 2; q 3])] ]}).

Definition scenario_dir : string := "x/y/PathwayA/GeneX/Study1/1/z".

(** A larger run: a two-gene perturbation, missing counts, a gene that is
    not in the pathway, count files with different row labels. *)
Definition sample_fs : filesystem :=
  FS (list_to_map
        [ ("results/pathways/csv_files/PathwayA.csv",
           [("source", ["GeneX"; "GeneY"; "GeneX"]);
            ("weight", ["1"; "2"; "3"]);
            ("sink", ["GeneY"; "GeneW"; "GeneX"])]);
          ("results/pathways/csv_files/PathwayB.csv",
           [("source", ["GeneX"]); ("target", ["GeneY"])]) ])
     (list_to_map
        [ ("resources/data/Study1/Counts_Ctrl_1.csv",
           Frame ["c1"; "c2"; "c3"]
                 [("GeneX", [q 1; q 2; q 3]); ("GeneY", [q 4; None; q 6])]);
          ("resources/data/Study1/Counts_GeneX,GeneY_1.csv",
           Frame ["m1"; "m2"]
                 [("GeneX", [q 2; q 2]); ("GeneY", [None; None])]);
          ("resources/data/Study1/Counts_GeneX_1.csv",
           Frame ["m1"; "m2"; "m3"]
                 [("GeneX", [q 1; q 2; q 3]); ("GeneY", [q 0; q 0; q 0])]);
          ("resources/data/Study1/Counts_GeneX,GeneW_1.csv",
           Frame ["m1"] [("GeneX", [q 9]); ("GeneY", [q 9])]);
          ("resources/data/Study2/Counts_Ctrl_1.csv",
           Frame ["c1"] [("GeneX", [q 1]); ("GeneX", [q 2])]);
          ("resources/data/Study2/Counts_GeneX_1.csv",
           Frame ["m1"] [("GeneX", [q 3])]);
          ("resources/data/Study1/Counts_Ctrl_2.csv",
           Frame ["c1"] [("GeneZ", [q 5])]);
          ("resources/data/Study1/Counts_GeneZ_2.csv",
           Frame ["m1"] [("GeneQ", [q 1]); ("GeneZ", [q 7])]) ]).

Definition sample_dirs : list string :=
  [ "runs/PathwayA/GeneX,GeneY/Study1/1/0.5";
    "x/y/PathwayA/GeneX/Study1/1/z";
    "PathwayA/GeneZ/Study1/2/0.1" ].

(** ** Properties of the string model *)

Lemma split_not_nil sep s : Str.split sep s ≠ [].
Proof.
  destruct s as [|c rest]; simpl; [done|].
  destruct (Ascii.eqb c sep); [done|].
  by destruct (Str.split sep rest).
Qed.

Lemma split_length sep s :
  length (Str.split sep s) = S (Str.count sep s).
Proof.
  induction s as [|c rest IH]; simpl; [done|].
  destruct (Ascii.eqb c sep); simpl; [by rewrite IH|].
  destruct (Str.split sep rest) eqn:E; simpl in *; [done|lia].
Qed.

Lemma join_split sep s : Str.join sep (Str.split sep s) = s.
Proof.
  induction s as [|c rest IH]; simpl; [done|].
  destruct (Ascii.eqb c sep) eqn:Ec.
  - apply Ascii.eqb_eq in Ec as ->.
    pose proof (split_not_nil sep rest) as Hne.
    simpl. destruct (Str.split sep rest) as [|w ws]; [done|].
    by rewrite IH.
  - pose proof (split_not_nil sep rest) as Hne.
    destruct (Str.split sep rest) as [|w ws]; [done|].
    simpl in *. destruct ws; simpl in *; by rewrite <- IH.
Qed.

Lemma split_no_sep sep s :
  Forall (fun w => Str.count sep w = 0) (Str.split sep s).
Proof.
  induction s as [|c rest IH]; simpl.
  - by constructor.
  - destruct (Ascii.eqb c sep) eqn:Ec.
    + by constructor.
    + destruct (Str.split sep rest) as [|w ws].
      * constructor; [|done]. simpl. by rewrite Ec.
      * inversion IH; subst. constructor; [|done]. simpl. rewrite Ec. done.
Qed.

(** ** The result monad and the loop *)

Ltac unfold_bind := unfold mbind, result_bind, Py.bind in *.

Lemma bind_ok {A B} (m : result A) (k : A → result B) b :
  (m ≫= k) = Ok b ↔ ∃ a, m = Ok a ∧ k a = Ok b.
Proof.
  unfold_bind. destruct m as [a|e]; split.
  - eauto.
  - by intros (a' & [= <-] & ?).
  - done.
  - by intros (a' & ? & ?).
Qed.

Section loops.
Context {A B : Type} (F : A → result (list B)).
Context (body : A → list B → result (list B)).
Hypothesis body_extends : ∀ x s, body x s = (F x ≫= λ ys, Ok (s ++ ys)).

Lemma for_extend_ok xs s s' :
  for_ xs body s = Ok s' ↔
  ∃ groups, Forall2 (λ x grp, F x = Ok grp) xs groups ∧ s' = s ++ concat groups.
Proof.
  revert s. induction xs as [|x xs IH]; intros s; simpl.
  - split.
    + intros [= <-]. exists []. split; [constructor|]. simpl. by rewrite app_nil_r.
    + intros (groups & H & ->). inversion H; subst. simpl. by rewrite app_nil_r.
  - rewrite body_extends. unfold_bind. destruct (F x) as [ys|e] eqn:E.
    + rewrite IH. split.
      * intros (groups & H & ->). exists (ys :: groups).
        split; [by constructor|]. simpl. by rewrite app_assoc.
      * intros (groups & H & ->). inversion H as [|? grp ? groups' Hx Hrest]; subst.
        exists groups'. split; [done|]. simpl.
        assert (grp = ys) as -> by congruence. by rewrite app_assoc.
    + split; [done|]. intros (groups & H & _). inversion H; subst. congruence.
Qed.

Lemma for_extend_raise pre x rest groups e s :
  Forall2 (λ x grp, F x = Ok grp) pre groups →
  F x = Raise e →
  for_ (pre ++ x :: rest) body s = Raise e.
Proof.
  intros H. revert s. induction H as [|y grp pre groups Hy _ IH]; intros s Hx; simpl.
  - rewrite body_extends, Hx. done.
  - rewrite body_extends, Hy. simpl. by apply IH.
Qed.

Lemma for_extend_fails xs x e s :
  x ∈ xs → F x = Raise e → ∃ e', for_ xs body s = Raise e'.
Proof.
  intros Hin Hx. revert s. induction xs as [|y xs IH]; intros s.
  - by apply elem_of_nil in Hin.
  - simpl. rewrite body_extends. unfold_bind.
    destruct (F y) as [ys|e1] eqn:E; [|eauto].
    apply elem_of_cons in Hin as [->|Hin]; [congruence|]. by apply IH.
Qed.
End loops.

(** ** The path parser *)

Lemma unpack_last5_short (segments : list string) :
  (length segments < 5)%nat → unpack_last5 segments = Raise ValueError.
Proof.
  intros H. unfold unpack_last5. rewrite <- length_rev in H.
  destruct (rev segments) as [|e [|d [|c [|b [|a r]]]]]; simpl in H; (done || lia).
Qed.

Lemma unpack_last5_long (segments : list string) :
  (5 ≤ length segments)%nat →
  ∃ pre f,
    segments = pre ++ [pathway f; gene f; study f; treatment f; deconf_param f]
    ∧ unpack_last5 segments = Ok f.
Proof.
  intros H. unfold unpack_last5. rewrite <- length_rev in H.
  destruct (rev segments) as [|e [|d [|c [|b [|a r]]]]] eqn:E; simpl in H; try lia.
  exists (rev r), (DirFields a b c d e). split; [|done].
  rewrite <- (rev_involutive segments), E. simpl.
  by rewrite <- !app_assoc.
Qed.

(** C5. The path parser splits the directory string on '/', takes the last
    five segments as pathway, gene, study, treatment, deconf_param in that
    order, splits the gene segment on ',' into at least one gene symbol, and
    raises (ValueError, not caught anywhere) whenever the string has fewer
    than five segments.  The segments are characterised independently of
    [Str.split]: they contain no '/' and joined by '/' give the string
    back; likewise for the gene symbols and ','. *)
Theorem parse_dir_last_five (dir_ : string) :
  let segments := Str.split "/" dir_ in
  Str.join "/" segments = dir_
  ∧ Forall (λ w, Str.count "/" w = 0) segments
  ∧ ((length segments < 5)%nat → parse_dir dir_ = Raise ValueError)
  ∧ ((5 ≤ length segments)%nat →
     ∃ pre f,
       segments = pre ++ [pathway f; gene f; study f; treatment f; deconf_param f]
       ∧ parse_dir dir_ = Ok f
       ∧ (1 ≤ length (gene_list f))%nat
       ∧ length (gene_list f) = S (Str.count "," (gene f))
       ∧ Str.join "," (gene_list f) = gene f
       ∧ Forall (λ g, Str.count "," g = 0) (gene_list f)).
Proof.
  intros segments. split; [apply join_split|]. split; [apply split_no_sep|].
  split; [apply unpack_last5_short|].
  intros H. destruct (unpack_last5_long segments H) as (pre & f & Hseg & Hf).
  exists pre, f. split; [done|]. split; [done|]. unfold gene_list.
  rewrite split_length. split; [lia|]. split; [done|].
  split; [apply join_split | apply split_no_sep].
Qed.

Lemma parse_dir_last_five_witness :
  parse_dir "x/y/PathwayA/GeneX,GeneY/Study1/1/z"
    = Ok (DirFields "PathwayA" "GeneX,GeneY" "Study1" "1" "z")
  ∧ gene_list (DirFields "PathwayA" "GeneX,GeneY" "Study1" "1" "z")
    = ["GeneX"; "GeneY"]
  ∧ parse_dir "GeneX/Study1/1/z" = Raise ValueError.
Proof.
  pose proof (parse_dir_last_five "x/y/PathwayA/GeneX,GeneY/Study1/1/z")
    as (_ & _ & _ & Hlong).
  pose proof (parse_dir_last_five "GeneX/Study1/1/z") as (_ & _ & Hshort & _).
  destruct Hlong as (pre & f & Hseg & Hf & _); [vm_compute; lia|].
  split; [|split].
  - rewrite Hf. f_equal. vm_compute in Hseg.
    destruct f as [p g s t d]. simpl in Hseg.
    apply (f_equal (@rev string)) in Hseg. rewrite rev_app_distr in Hseg.
    simpl in Hseg. by injection Hseg as <- <- <- <- <- _.
  - reflexivity.
  - apply Hshort. vm_compute. lia.
Defined.

(** ** The shape of a run of read_data *)

Lemma gene_records_ok f graph df g recs :
  gene_records f graph df g = Ok recs ↔
  ∃ deg sel,
    degree_value graph g = Ok deg ∧ loc df g = Ok sel
    ∧ recs =
        [ record "pathway_degree" (gene f) (pathway f ++ " -- " ++ g) deg;
          record "expression_count_mean" (gene f) (treatment f ++ " -- " ++ g)
                 (sel_mean sel);
          record "expression_count_std" (gene f) (treatment f ++ " -- " ++ g)
                 (sel_std sel) ].
Proof.
  unfold gene_records. unfold_bind.
  destruct (degree_value graph g) as [deg|e]; [|split; [done|by intros (?&?&?&?)]].
  destruct (loc df g) as [sel|e]; [|split; [done|by intros (?&?&?&?&?)]].
  split.
  - intros [= <-]. by exists deg, sel.
  - by intros (deg' & sel' & [= <-] & [= <-] & ->).
Qed.

Lemma gene_loop_extends f graph df g (s : list dict) :
  (gene_records f graph df g ≫= λ recs, Ok (s ++ recs))
  = (gene_records f graph df g ≫= λ ys, Ok (s ++ ys)).
Proof. done. Qed.

Lemma dir_body_extends fs dir_ s :
  dir_body fs dir_ s = (dir_records fs dir_ ≫= λ ys, Ok (s ++ ys)).
Proof.
  unfold dir_records, dir_body. unfold_bind.
  destruct (parse_dir dir_) as [f|e]; [|done].
  destruct (load_graph fs f) as [graph|e]; [|done].
  destruct (load_counts fs f) as [df|e]; [|done].
  set (body := λ g tmp, match gene_records f graph df g with
                        | Ok a => Ok (tmp ++ a) | Raise e => Raise e end).
  assert (Hb : ∀ x s, body x s = (gene_records f graph df x ≫= λ ys, Ok (s ++ ys)))
    by done.
  destruct (for_ (gene_list f) body s) as [s'|e] eqn:E.
  - apply (for_extend_ok _ _ Hb) in E as (groups & H & ->).
    assert (for_ (gene_list f) body [] = Ok (concat groups)) as ->; [|done].
    apply (for_extend_ok _ _ Hb). by exists groups.
  - destruct (for_ (gene_list f) body []) as [s0|e0] eqn:E0.
    + apply (for_extend_ok _ _ Hb) in E0 as (groups & H & ->).
      assert (for_ (gene_list f) body s = Ok (s ++ concat groups)) as E'.
      { apply (for_extend_ok _ _ Hb). by exists groups. }
      congruence.
    + clear -E E0 Hb. revert s E E0. generalize (@nil dict).
      induction (gene_list f) as [|g gl IH]; intros s0 s; simpl; [done|].
      rewrite !Hb. unfold_bind.
      destruct (gene_records f graph df g); [apply IH|congruence].
Qed.

Lemma dir_records_ok fs dir_ recs :
  dir_records fs dir_ = Ok recs ↔
  ∃ f graph df groups,
    parse_dir dir_ = Ok f ∧ load_graph fs f = Ok graph
    ∧ load_counts fs f = Ok df
    ∧ Forall2 (λ g grp, gene_records f graph df g = Ok grp) (gene_list f) groups
    ∧ recs = concat groups.
Proof.
  unfold dir_records, dir_body. unfold_bind.
  destruct (parse_dir dir_) as [f|e]; [|split; [done|by intros (?&?&?&?&?&?)]].
  destruct (load_graph fs f) as [graph|e] eqn:Eg;
    [|split; [done|intros (?&?&?&?&[= <-]&?&?); congruence]].
  destruct (load_counts fs f) as [df|e] eqn:Ec;
    [|split; [done|intros (?&?&?&?&[= <-]&?&?&?); congruence]].
  set (body := λ g tmp, match gene_records f graph df g with
                        | Ok a => Ok (tmp ++ a) | Raise e => Raise e end).
  assert (Hb : ∀ x s, body x s = (gene_records f graph df x ≫= λ ys, Ok (s ++ ys)))
    by done.
  rewrite (for_extend_ok _ _ Hb). split.
  - intros (groups & H & ->). by exists f, graph, df, groups.
  - intros (f' & graph' & df' & groups & [= <-] & Hg & Hc & H & ->).
    assert (graph' = graph) as -> by congruence.
    assert (df' = df) as -> by congruence.
    by exists groups.
Qed.

Lemma read_records_dirs fs dir_list tmp :
  read_records fs dir_list = Ok tmp ↔
  ∃ groups,
    Forall2 (λ d grp, dir_records fs d = Ok grp) dir_list groups
    ∧ tmp = concat groups.
Proof.
  unfold read_records.
  rewrite (for_extend_ok (dir_records fs) _ (dir_body_extends fs)). done.
Qed.

(** A run that succeeds has carried out every job of [jobs], in order. *)
Lemma read_records_jobs fs dir_list tmp :
  read_records fs dir_list = Ok tmp →
  ∃ triples,
    Forall2 (λ j t, run_job j = Ok t) (jobs fs dir_list) triples
    ∧ tmp = concat triples.
Proof.
  rewrite read_records_dirs. intros (groups & H & ->).
  induction H as [|d grp ds groups Hd _ IH].
  - exists []. by split; [constructor|].
  - destruct IH as (triples & Ht & Heq).
    apply dir_records_ok in Hd as (f & graph & df & gs & Hp & Hg & Hc & Hgs & ->).
    exists (gs ++ triples). split.
    + unfold jobs. simpl. apply Forall2_app; [|done].
      unfold jobs_of_dir. rewrite Hp, Hg, Hc.
      apply Forall2_fmap_l. eapply Forall2_impl; [exact Hgs|]. done.
    + simpl. rewrite Heq. by rewrite concat_app.
Qed.

Lemma jobs_length fs dir_list tmp :
  read_records fs dir_list = Ok tmp →
  length (jobs fs dir_list) = total_gene_symbols dir_list.
Proof.
  rewrite read_records_dirs. intros (groups & H & _).
  unfold jobs, total_gene_symbols.
  induction H as [|d grp ds groups Hd _ IH]; [done|].
  simpl. rewrite length_app, IH. f_equal.
  apply dir_records_ok in Hd as (f & graph & df & gs & Hp & Hg & Hc & _).
  unfold jobs_of_dir, gene_symbols. rewrite Hp, Hg, Hc, length_fmap.
  apply split_length.
Qed.

(** ** The table built from the records *)

Lemma gene_records_shape f graph df g recs :
  gene_records f graph df g = Ok recs →
  Forall is_record recs ∧ type_of <$> recs = Some <$> three_types.
Proof.
  intros (deg & sel & _ & _ & ->)%gene_records_ok. split; [|done].
  repeat constructor; unfold is_record; eauto.
Qed.

Lemma read_records_shape fs dir_list tmp :
  read_records fs dir_list = Ok tmp →
  Forall is_record tmp
  ∧ type_of <$> tmp = Some <$> flat_map (λ _, three_types) (jobs fs dir_list).
Proof.
  intros (triples & H & ->)%read_records_jobs.
  induction H as [|j t js ts Hj _ [IH1 IH2]]; [by split; [constructor|]|].
  destruct j as [[[f graph] df] g]. simpl in Hj.
  apply gene_records_shape in Hj as [Hr Ht]. simpl. split.
  - by apply Forall_app.
  - by rewrite fmap_app, Ht, IH2.
Qed.

Lemma keys_union_records tmp :
  tmp ≠ [] → Forall is_record tmp → keys_union tmp = record_keys.
Proof.
  destruct tmp as [|r rest]; [done|]. intros _ H.
  inversion H as [|? ? (t & g & s & v & ->) Hrest]; subst.
  unfold keys_union. simpl. clear H.
  change (foldl _ _ (record t g s v)) with record_keys.
  induction Hrest as [|r rest (t' & g' & s' & v' & ->) _ IH]; [done|].
  simpl. exact IH.
Qed.

Lemma upcast_length body w : length (upcast body w) = length body.
Proof. unfold upcast. by rewrite length_fmap. Qed.

Lemma DataFrame_length tmp :
  length (df_data (DataFrame_of_records tmp)) = length tmp.
Proof. simpl. by rewrite upcast_length, length_fmap. Qed.

Lemma DataFrame_first_column tmp :
  Forall is_record tmp →
  (λ row : list pyval, row !! 0) <$> df_data (DataFrame_of_records tmp)
  = type_of <$> tmp.
Proof.
  intros H. destruct (decide (tmp = [])) as [->|Hne]; [done|].
  unfold DataFrame_of_records. rewrite (keys_union_records tmp Hne H).
  simpl. unfold upcast. rewrite <- !list_fmap_compose.
  apply Forall_fmap_ext. eapply Forall_impl; [exact H|].
  intros r (t & g & s & v & ->). simpl.
  by destruct (forallb _ _ && existsb _ _).
Qed.

(** C1. When read_data returns a table, the table (and the CSV written from
    it) has exactly 3 x (number of gene symbols over all directories) rows:
    every gene symbol of every directory is one job, a directory names one
    more gene symbol than its gene segment has commas, and every job
    contributes the three rows pathway_degree, expression_count_mean,
    expression_count_std, in this order. *)
Theorem read_data_three_per_gene fs dir_list df :
  read_data fs dir_list = Ok df →
  length (df_data df) = 3 * total_gene_symbols dir_list
  ∧ length (csv_lines (to_csv df false)) = 3 * total_gene_symbols dir_list
  ∧ length (jobs fs dir_list) = total_gene_symbols dir_list
  ∧ (λ row : list pyval, row !! 0) <$> df_data df
    = Some <$> flat_map (λ _, three_types) (jobs fs dir_list).
Proof.
  unfold read_data. intros (tmp & Htmp & [= <-])%bind_ok.
  pose proof (read_records_shape _ _ _ Htmp) as [Hrec Htypes].
  pose proof (jobs_length _ _ _ Htmp) as Hjobs.
  assert (length (df_data (DataFrame_of_records tmp))
          = 3 * total_gene_symbols dir_list) as Hlen.
  { rewrite DataFrame_length, <- Hjobs.
    rewrite <- (length_fmap type_of), Htypes, length_fmap.
    generalize (jobs fs dir_list). intros js.
    induction js as [|j js IH]; simpl; lia. }
  split; [done|]. split; [done|]. split; [done|].
  by rewrite DataFrame_first_column.
Qed.

Lemma read_data_three_per_gene_witness :
  ∃ df, read_data sample_fs sample_dirs = Ok df
        ∧ length (df_data df) = 3 * total_gene_symbols sample_dirs
        ∧ total_gene_symbols sample_dirs = 4.
Proof.
  eexists. split; [vm_compute; reflexivity|]. split; [|reflexivity].
  eapply proj1. apply (read_data_three_per_gene sample_fs sample_dirs).
  vm_compute. reflexivity.
Defined.

(** ** Runs of main *)

(** Every run of main from an empty trace ends in one of these traces. *)
Lemma main_traces refuses fs dir_list fname out_dir :
  let run := main refuses fs dir_list fname out_dir [] in
  (run.1 = [] ∧ run.2 ≠ Ok tt)
  ∨ (run.1 = [MkDir out_dir] ∧ run.2 ≠ Ok tt)
  ∨ ∃ df plots,
      read_data fs dir_list = Ok df
      ∧ run.1 = MkDir out_dir :: WriteCsv fname (to_csv df false)
                :: (SaveFig <$> plots)
      ∧ plots `prefix_of` three_pdfs out_dir
      ∧ (run.2 = Ok tt ↔ plots = three_pdfs out_dir).
Proof.
  unfold main, figure, boxplot, io_bind, perform, draw, lift. simpl.
  destruct (refuses (MkDir out_dir)); simpl; [by left|].
  destruct (read_data fs dir_list) as [df|e]; simpl; [|by right; left].
  destruct (refuses (WriteCsv _ _)); simpl; [by right; left|].
  right; right. exists df.
  destruct (boxplot_args df "pathway_degree" false) as [c1|e1]; simpl;
    [destruct (refuses c1); simpl;
     [|destruct (refuses (SaveFig (degrees_pdf out_dir))); simpl]|];
    try (exists []; split_and!;
         [done|done|apply prefix_nil|split; [done|discriminate]]).
  destruct (boxplot_args df "expression_count_mean" true) as [c2|e2]; simpl;
    [destruct (refuses c2); simpl;
     [|destruct (refuses (SaveFig (counts_mean_pdf out_dir))); simpl]|];
    try (exists [degrees_pdf out_dir]; split_and!;
         [done|done|by eexists|split; [done|discriminate]]).
  destruct (boxplot_args df "expression_count_std" true) as [c3|e3]; simpl;
    [destruct (refuses c3); simpl;
     [|destruct (refuses (SaveFig (counts_std_pdf out_dir))); simpl]|];
    try (exists [degrees_pdf out_dir; counts_mean_pdf out_dir];
         split_and!;
         [done|done|by eexists|split; [done|discriminate]]).
  exists (three_pdfs out_dir). by split_and!.
Qed.

Lemma read_records_nonempty fs d ds tmp :
  read_records fs (d :: ds) = Ok tmp → tmp ≠ [].
Proof.
  intros (groups & H & ->)%read_records_dirs.
  inversion H as [|? grp ? groups' Hd _]; subst.
  apply dir_records_ok in Hd as (f & graph & df & gs & _ & _ & _ & Hgs & ->).
  pose proof (split_not_nil "," (gene f)) as Hne. unfold gene_list in Hgs.
  inversion Hgs as [|g t gl ts Hg _]; subst; [congruence|].
  apply gene_records_ok in Hg as (? & ? & _ & _ & ->). done.
Qed.

Lemma DataFrame_row_width tmp :
  tmp ≠ [] → Forall is_record tmp →
  df_columns (DataFrame_of_records tmp) = record_keys
  ∧ Forall (λ row, length row = 4) (df_data (DataFrame_of_records tmp)).
Proof.
  intros Hne H. unfold DataFrame_of_records.
  rewrite (keys_union_records tmp Hne H). split; [done|].
  simpl. unfold upcast. apply Forall_fmap, Forall_fmap.
  eapply Forall_impl; [exact H|]. by intros r (t & g & s & v & ->).
Qed.

(** C7, as the code has it. The CSV main writes is the table of read_data
    written without index column. For a non-empty directory list its
    columns are exactly type, gene, source, value, in this order, and every
    line has these four cells. For the empty directory list the table is
    built from no record at all: it has no columns and the CSV has an empty
    header. *)
Theorem csv_columns refuses fs dir_list fname out_dir f c :
  (f, c) ∈ written_csv (main refuses fs dir_list fname out_dir []).1 →
  f = fname
  ∧ (∃ df, read_data fs dir_list = Ok df ∧ c = to_csv df false
           ∧ csv_header c = df_columns df ∧ csv_lines c = df_data df)
  ∧ (dir_list ≠ [] →
     csv_header c = ["type"; "gene"; "source"; "value"]
     ∧ Forall (λ line, length line = 4) (csv_lines c))
  ∧ (dir_list = [] → csv_header c = [] ∧ csv_lines c = []).
Proof.
  intros Hin.
  destruct (main_traces refuses fs dir_list fname out_dir)
    as [[Htr _]|[[Htr _]|(df & plots & Hdf & Htr & _)]];
    simpl in Htr; rewrite Htr in Hin; simpl in Hin;
    try by apply elem_of_nil in Hin.
  assert (written_csv (SaveFig <$> plots) = []) as Hnil.
  { clear. by induction plots. }
  unfold written_csv in Hin, Hnil. rewrite Hnil in Hin.
  apply list_elem_of_singleton in Hin as [= -> ->].
  split; [done|]. split; [by exists df|].
  unfold read_data in Hdf. apply bind_ok in Hdf as (tmp & Htmp & [= <-]).
  split.
  - intros Hne. destruct dir_list as [|d ds]; [done|].
    apply DataFrame_row_width.
    + by eapply read_records_nonempty.
    + by eapply read_records_shape.
  - intros ->. by injection Htmp as <-.
Qed.

Lemma csv_columns_witness :
  ∃ c, ("stats.csv", c)
       ∈ written_csv (main (λ _, false) sample_fs sample_dirs "stats.csv"
                           "plots" []).1
       ∧ csv_header c = ["type"; "gene"; "source"; "value"]
       ∧ length (csv_lines c) = 12.
Proof.
  eexists. split; [vm_compute; apply list_elem_of_here|].
  split; [|reflexivity].
  eapply (csv_columns (λ _, false) sample_fs sample_dirs "stats.csv" "plots").
  - vm_compute. apply list_elem_of_here.
  - discriminate.
Defined.

(** C7 as stated fails: with an empty directory list main writes a CSV
    without any column. *)
Lemma csv_columns_empty_run :
  ¬ (∀ refuses fs dir_list fname out_dir f c,
       (f, c) ∈ written_csv (main refuses fs dir_list fname out_dir []).1 →
       csv_header c = ["type"; "gene"; "source"; "value"]).
Proof.
  intros H.
  specialize (H (λ _, false) sample_fs [] "stats.csv" "plots" "stats.csv"
                (MkCsv [] [])).
  discriminate H. vm_compute. apply list_elem_of_here.
Qed.

(** ** The arguments of the plotting calls *)

Lemma zip_with_fmap_self {A B C} (f : A → B → C) (h : A → B) l :
  zip_with f l (h <$> l) = (λ x, f x (h x)) <$> l.
Proof. induction l as [|x l IH]; [done|]. csimpl. f_equal. exact IH. Qed.

Lemma filter_zip_self {A B} (h : A → B) (p : B → bool) (l : list A) :
  (filter (λ tr : B * A, p tr.1) (zip (h <$> l) l)).*2
  = filter (λ x, p (h x)) l.
Proof.
  induction l as [|x l IH]; [done|].
  rewrite fmap_cons. simpl zip. rewrite !filter_cons. simpl.
  destruct (decide (p (h x))); [|exact IH].
  rewrite fmap_cons. simpl. f_equal. exact IH.
Qed.

Lemma filter_type_rows df type_ :
  df_columns df = record_keys →
  filter_type df type_
  = Ok (MkDataFrame record_keys
          (filter (λ row, is_str type_ (default (VFloat NaN) (row !! 0)))
                  (df_data df))).
Proof.
  intros Hcols. unfold filter_type, df_getitem. rewrite Hcols. simpl.
  f_equal. f_equal. apply (filter_zip_self _ (is_str type_)).
Qed.

Lemma assign_treatment_rows rows :
  assign_treatment (MkDataFrame record_keys rows)
  = Ok (MkDataFrame (record_keys ++ ["treatment"])
          ((λ row, row ++ [treatment_of_source
                             (default (VFloat NaN) (row !! 2))]) <$> rows)).
Proof.
  unfold assign_treatment, df_getitem. simpl. f_equal. f_equal.
  apply (zip_with_fmap_self (λ row s, row ++ [treatment_of_source s])
                            (λ r : list pyval, default (VFloat NaN) (r !! 2))).
Qed.

Lemma plot_data_ok df type_ hue :
  df_columns df = record_keys → ∃ data, plot_data df type_ hue = Ok data.
Proof.
  intros Hcols. unfold plot_data. rewrite (filter_type_rows _ _ Hcols).
  cbn [mbind result_bind bind]. destruct hue; [|by eexists].
  rewrite assign_treatment_rows. by eexists.
Qed.

(** On a table with the four record columns the script finds every column
    it looks up: the arguments of a plotting call are always built. *)
Lemma boxplot_args_ok df type_ hue :
  df_columns df = record_keys →
  ∃ data genes,
    plot_data df type_ hue = Ok data
    ∧ df_getitem df "gene" = Ok genes
    ∧ boxplot_args df type_ hue = Ok (Boxplot data hue genes).
Proof.
  intros Hcols. destruct (plot_data_ok df type_ hue Hcols) as [data Hd].
  assert (∃ genes, df_getitem df "gene" = Ok genes) as [genes Hg].
  { unfold df_getitem. rewrite Hcols. by eexists. }
  exists data, genes. unfold boxplot_args. rewrite Hd.
  cbn [mbind result_bind bind]. by rewrite Hg.
Qed.

Lemma boxplot_args_inv df type_ hue c :
  boxplot_args df type_ hue = Ok c →
  ∃ data genes, c = Boxplot data hue genes.
Proof.
  unfold boxplot_args.
  intros (data & _ & (genes & _ & [= <-])%bind_ok)%bind_ok. by eexists _, _.
Qed.

Lemma run_columns fs dir_list df :
  read_data fs dir_list = Ok df → dir_list ≠ [] →
  df_columns df = record_keys.
Proof.
  unfold read_data. intros (tmp & Htmp & [= <-])%bind_ok Hne.
  destruct dir_list as [|d ds]; [done|]. apply DataFrame_row_width.
  - by eapply read_records_nonempty.
  - by eapply read_records_shape.
Qed.

Lemma written_csv_figs plots : written_csv (SaveFig <$> plots) = [].
Proof. by induction plots. Qed.

Lemma written_pdf_figs plots : written_pdf (SaveFig <$> plots) = plots.
Proof. induction plots as [|p ps IH]; [done|]. simpl. f_equal. exact IH. Qed.

(** Once the output directory exists and the table is built, the CSV is
    written unless the outside world refuses that write, whatever happens
    at the plotting stage. *)
Lemma main_csv_written refuses fs dir_list fname out_dir df :
  read_data fs dir_list = Ok df →
  refuses (MkDir out_dir) = false →
  refuses (WriteCsv fname (to_csv df false)) = false →
  written_csv (main refuses fs dir_list fname out_dir []).1
  = [(fname, to_csv df false)].
Proof.
  intros Hdf Hm Hc.
  unfold main, figure, boxplot, io_bind, perform, draw, lift. simpl.
  rewrite Hm. simpl. rewrite Hdf. simpl. simpl in Hc. rewrite Hc. simpl.
  destruct (boxplot_args df "pathway_degree" false) as [c1|e1]; simpl;
    [destruct (refuses c1); simpl;
     [|destruct (refuses (SaveFig (degrees_pdf out_dir))); simpl]|];
    try reflexivity.
  destruct (boxplot_args df "expression_count_mean" true) as [c2|e2]; simpl;
    [destruct (refuses c2); simpl;
     [|destruct (refuses (SaveFig (counts_mean_pdf out_dir))); simpl]|];
    try reflexivity.
  destruct (boxplot_args df "expression_count_std" true) as [c3|e3]; simpl;
    [destruct (refuses c3); simpl;
     [|destruct (refuses (SaveFig (counts_std_pdf out_dir))); simpl]|];
    reflexivity.
Qed.

(** With the arguments of the three plotting calls built, the figures
    saved are those before the first plotting call or save that fails. *)
Lemma main_figures refuses fs dir_list fname out_dir df c1 c2 c3 :
  read_data fs dir_list = Ok df →
  refuses (MkDir out_dir) = false →
  refuses (WriteCsv fname (to_csv df false)) = false →
  boxplot_args df "pathway_degree" false = Ok c1 →
  boxplot_args df "expression_count_mean" true = Ok c2 →
  boxplot_args df "expression_count_std" true = Ok c3 →
  let run := main refuses fs dir_list fname out_dir [] in
  let steps := [c1; SaveFig (degrees_pdf out_dir);
                c2; SaveFig (counts_mean_pdf out_dir);
                c3; SaveFig (counts_std_pdf out_dir)] in
  written_pdf run.1 = written_pdf (accepted refuses steps)
  ∧ (run.2 = Ok tt ↔ accepted refuses steps = steps).
Proof.
  intros Hdf Hm Hc H1 H2 H3.
  unfold main, figure, boxplot, io_bind, perform, draw, lift. simpl.
  rewrite Hm. simpl. rewrite Hdf. simpl. simpl in Hc. rewrite Hc. simpl.
  rewrite H1, H2, H3. simpl.
  apply boxplot_args_inv in H1 as (d1 & g1 & ->).
  apply boxplot_args_inv in H2 as (d2 & g2 & ->).
  apply boxplot_args_inv in H3 as (d3 & g3 & ->).
  destruct (refuses (Boxplot d1 _ _)); simpl; [by split|].
  destruct (refuses (SaveFig (degrees_pdf out_dir))); simpl; [by split|].
  destruct (refuses (Boxplot d2 _ _)); simpl; [by split|].
  destruct (refuses (SaveFig (counts_mean_pdf out_dir))); simpl; [by split|].
  destruct (refuses (Boxplot d3 _ _)); simpl; [by split|].
  destruct (refuses (SaveFig (counts_std_pdf out_dir))); simpl; by split.
Qed.


(** Whatever the plotting stack does, a file system that saves no figure
    leaves the table and no figure behind, and the run ends in an
    exception. *)
Lemma main_no_figures fails fs dir_list fname out_dir df :
  read_data fs dir_list = Ok df →
  let run := main (no_figures fails) fs dir_list fname out_dir [] in
  written_csv run.1 = [(fname, to_csv df false)]
  ∧ written_pdf run.1 = []
  ∧ run.2 ≠ Ok tt.
Proof.
  intros Hdf.
  unfold main, figure, boxplot, io_bind, perform, draw, lift. simpl.
  rewrite Hdf. simpl.
  destruct (boxplot_args df "pathway_degree" false) as [c1|e1] eqn:Hc1;
    simpl; [|by split_and!].
  apply boxplot_args_inv in Hc1 as (d1 & g1 & ->).
  simpl. destruct (fails d1 false g1); simpl; by split_and!.
Qed.


(** C8. In every run of main the CSV is written before any figure is saved:
    a saved figure sits in the trace behind the CSV write.  The output left
    behind is either nothing (a failure before the CSV write: no CSV, no
    figure) or the table of read_data together with a prefix of the three
    figures, the run ending without exception exactly when all three are
    there.  Both kinds of state occur: some outside world leaves nothing,
    and, whatever the plotting stack does, a file system that saves no
    figure leaves the table and no figure.  Once the directory and the CSV
    write are accepted the table is written whatever happens at the
    plotting stage, and for a non-empty directory list the figures saved
    are those before the first plotting call or save that fails. *)
Theorem csv_written_before_plots refuses fs dir_list fname out_dir :
  let run := main refuses fs dir_list fname out_dir [] in
  ((written_csv run.1 = [] ∧ written_pdf run.1 = [] ∧ run.2 ≠ Ok tt)
   ∨ (∃ df, read_data fs dir_list = Ok df
            ∧ written_csv run.1 = [(fname, to_csv df false)]
            ∧ written_pdf run.1 `prefix_of` three_pdfs out_dir
            ∧ (run.2 = Ok tt ↔ written_pdf run.1 = three_pdfs out_dir)))
  ∧ (∀ i p, run.1 !! i = Some (SaveFig p) →
            1 < i ∧ ∃ c, run.1 !! 1 = Some (WriteCsv fname c))
  ∧ (∃ refuses', (main refuses' fs dir_list fname out_dir []).1 = [])
  ∧ (∀ df fails, read_data fs dir_list = Ok df →
       let run' := main (no_figures fails) fs dir_list fname out_dir [] in
       written_csv run'.1 = [(fname, to_csv df false)]
       ∧ written_pdf run'.1 = []
       ∧ run'.2 ≠ Ok tt)
  ∧ (∀ df, read_data fs dir_list = Ok df →
       refuses (MkDir out_dir) = false →
       refuses (WriteCsv fname (to_csv df false)) = false →
       written_csv run.1 = [(fname, to_csv df false)]
       ∧ (dir_list ≠ [] →
          ∃ c1 c2 c3,
            boxplot_args df "pathway_degree" false = Ok c1
            ∧ boxplot_args df "expression_count_mean" true = Ok c2
            ∧ boxplot_args df "expression_count_std" true = Ok c3
            ∧ written_pdf run.1
              = written_pdf
                  (accepted refuses
                     [c1; SaveFig (degrees_pdf out_dir);
                      c2; SaveFig (counts_mean_pdf out_dir);
                      c3; SaveFig (counts_std_pdf out_dir)]))).
Proof.
  intros run. split_and!.
  - destruct (main_traces refuses fs dir_list fname out_dir)
      as [[Htr Hres]|[[Htr Hres]|(df & plots & Hdf & Htr & Hpre & Hres)]];
      fold run in Htr, Hres.
    + left. by rewrite Htr.
    + left. by rewrite Htr.
    + right. exists df. rewrite Htr. simpl.
      fold (written_csv (SaveFig <$> plots)).
      fold (written_pdf (SaveFig <$> plots)).
      by rewrite written_csv_figs, written_pdf_figs.
  - intros i p Hi.
    destruct (main_traces refuses fs dir_list fname out_dir)
      as [[Htr _]|[[Htr _]|(df & plots & _ & Htr & _)]];
      fold run in Htr; rewrite Htr in Hi |- *.
    + by rewrite lookup_nil in Hi.
    + destruct i as [|i]; simpl in Hi; [done|by rewrite lookup_nil in Hi].
    + destruct i as [|[|i]]; simpl in Hi; [done..|].
      split; [lia|]. by eexists.
  - exists (λ _, true). done.
  - intros df fails Hdf. by apply main_no_figures.
  - intros df Hdf Hm Hc. split; [by apply main_csv_written|].
    intros Hne. pose proof (run_columns _ _ _ Hdf Hne) as Hcols.
    destruct (boxplot_args_ok df "pathway_degree" false Hcols)
      as (d1 & g1 & _ & _ & H1).
    destruct (boxplot_args_ok df "expression_count_mean" true Hcols)
      as (d2 & g2 & _ & _ & H2).
    destruct (boxplot_args_ok df "expression_count_std" true Hcols)
      as (d3 & g3 & _ & _ & H3).
    eexists _, _, _. split_and!; [exact H1|exact H2|exact H3|].
    by apply (main_figures refuses fs dir_list fname out_dir df _ _ _
                Hdf Hm Hc H1 H2 H3).
Qed.

Lemma csv_written_before_plots_witness :
  ∃ df,
    read_data sample_fs sample_dirs = Ok df
    ∧ written_csv
        (main (refuses_fig "plots/counts_std.pdf") sample_fs sample_dirs
              "stats.csv" "plots" []).1
      = [("stats.csv", to_csv df false)]
    ∧ written_pdf
        (main (refuses_fig "plots/counts_std.pdf") sample_fs sample_dirs
              "stats.csv" "plots" []).1
      = ["plots/degrees.pdf"; "plots/counts_mean.pdf"].
Proof.
  assert (∃ df, read_data sample_fs sample_dirs = Ok df) as [df Hdf]
    by (eexists; vm_compute; reflexivity).
  destruct (csv_written_before_plots (refuses_fig "plots/counts_std.pdf")
              sample_fs sample_dirs "stats.csv" "plots")
    as (_ & _ & _ & _ & Hplots).
  destruct (Hplots df Hdf eq_refl eq_refl) as [Hcsv Hfig].
  destruct Hfig as (c1 & c2 & c3 & H1 & H2 & H3 & Hpdf); [discriminate|].
  exists df. split; [exact Hdf|]. split; [exact Hcsv|].
  cbv zeta in Hpdf. rewrite Hpdf.
  apply boxplot_args_inv in H1 as (d1 & g1 & ->).
  apply boxplot_args_inv in H2 as (d2 & g2 & ->).
  apply boxplot_args_inv in H3 as (d3 & g3 & ->).
  reflexivity.
Defined.

(** ** The pathway graph and the degree *)

Lemma add_edge_lookup (G : Graph) u v n :
  add_edge G u v !! n
  = match ends_of [(u, v)] n with
    | [] => G !! n
    | l => Some (neighbours G n ∪ list_to_set l)
    end.
Proof.
  unfold add_edge, ends_of, neighbours. simpl.
  destruct (decide (u = n)) as [->|Hu], (decide (v = n)) as [->|Hv]; simpl.
  - rewrite lookup_insert_eq, lookup_insert_eq. simpl. f_equal. set_solver.
  - rewrite lookup_insert_ne, lookup_insert_eq by done. f_equal. set_solver.
  - rewrite lookup_insert_eq, lookup_insert_ne by done. f_equal. set_solver.
  - by rewrite !lookup_insert_ne by done.
Qed.

Lemma ends_of_cons e edges n :
  ends_of (e :: edges) n = ends_of [e] n ++ ends_of edges n.
Proof. unfold ends_of. simpl. by rewrite app_nil_r. Qed.

Lemma add_edges_from_lookup (G : Graph) edges n :
  add_edges_from G edges !! n
  = match ends_of edges n with
    | [] => G !! n
    | l => Some (neighbours G n ∪ list_to_set l)
    end.
Proof.
  revert G. induction edges as [|[u v] edges IH]; intros G; [done|].
  rewrite ends_of_cons.
  change (add_edges_from G ((u, v) :: edges))
    with (add_edges_from (add_edge G u v) edges).
  rewrite IH. unfold neighbours at 1. rewrite (add_edge_lookup G u v n).
  destruct (ends_of [(u, v)] n) as [|x l] eqn:E1; [done|].
  destruct (ends_of edges n) as [|y l'] eqn:E2.
  - by rewrite app_nil_r.
  - simpl. f_equal. rewrite list_to_set_app_L. set_solver.
Qed.

Lemma from_pandas_edgelist_ok edges s t :
  getitem edges "source" = Ok s → getitem edges "sink" = Ok t →
  from_pandas_edgelist edges "source" "sink" = Ok (add_edges_from ∅ (zip s t)).
Proof. intros Hs Ht. unfold from_pandas_edgelist. by rewrite Hs, Ht. Qed.

Lemma from_edges_lookup edges n :
  add_edges_from (∅ : Graph) edges !! n
  = match ends_of edges n with
    | [] => None
    | l => Some (list_to_set l)
    end.
Proof.
  rewrite add_edges_from_lookup. destruct (ends_of edges n); [done|].
  unfold neighbours. rewrite lookup_empty. simpl. f_equal. set_solver.
Qed.

Lemma degree_value_total (graph : Graph) g :
  degree_value graph g
  = Ok (match graph !! g with
        | Some nbrs =>
            VInt (Z.of_nat (size nbrs) + (if bool_decide (g ∈ nbrs) then 1 else 0))
        | None => VFloat NaN
        end).
Proof.
  unfold degree_value, has_node, degree.
  destruct (graph !! g) as [nbrs|] eqn:E.
  - rewrite bool_decide_eq_true_2 by eauto. done.
  - rewrite bool_decide_eq_false_2; [done|]. by intros [? ?].
Qed.

(** C2. The value of a pathway_degree record is the degree of the gene in
    the pathway graph when the gene is a node, and NaN when it is not; the
    guarded expression of line 42 never raises, although the bare lookup
    [graph.degree[g]] would for an absent gene.  In a run that succeeds
    every job's first record is of this form.  For the graph built from the
    edge list the degree is the number of distinct other ends of the edges
    at the gene, plus one when the gene has a self-loop. *)
Theorem pathway_degree_value fs dir_list tmp :
  read_records fs dir_list = Ok tmp →
  (∀ (graph : Graph) g,
     (has_node graph g = true →
      ∃ d, degree graph g = Ok d ∧ degree_value graph g = Ok (VInt d))
     ∧ (has_node graph g = false →
        degree graph g = Raise (KeyError g)
        ∧ degree_value graph g = Ok (VFloat NaN)))
  ∧ (∃ triples,
       tmp = concat triples
       ∧ Forall2 (λ (j : job) t,
            let '(f, graph, df, g) := j in
            ∃ v r_mean r_std,
              t = [record "pathway_degree" (gene f)
                          (pathway f ++ " -- " ++ g) v; r_mean; r_std]
              ∧ degree_value graph g = Ok v
              ∧ v = if has_node graph g
                    then VInt (Z.of_nat (size (neighbours graph g))
                               + (if bool_decide (g ∈ neighbours graph g)
                                  then 1 else 0))
                    else VFloat NaN)
          (jobs fs dir_list) triples)
  ∧ (∀ edges g,
       degree_value (add_edges_from ∅ edges) g
       = Ok (match ends_of edges g with
             | [] => VFloat NaN
             | l => VInt (Z.of_nat (size (list_to_set l : gset string))
                          + (if bool_decide (g ∈ l) then 1 else 0))
             end)).
Proof.
  intros Htmp. split_and!.
  - intros graph g. unfold has_node. rewrite degree_value_total.
    unfold degree. destruct (graph !! g) as [nbrs|] eqn:E; split.
    + intros _. by eexists.
    + rewrite bool_decide_eq_true_2 by eauto. done.
    + rewrite bool_decide_eq_false_2; [done|]. by intros [? ?].
    + done.
  - apply read_records_jobs in Htmp as (triples & H & ->).
    exists triples. split; [done|].
    eapply Forall2_impl; [exact H|].
    intros [[[f graph] df] g] t Hj. simpl in Hj.
    apply gene_records_ok in Hj as (deg & sel & Hdeg & _ & ->).
    eexists deg, _, _. split; [done|]. split; [done|].
    rewrite degree_value_total in Hdeg. injection Hdeg as <-.
    unfold has_node, neighbours. destruct (graph !! g) as [nbrs|] eqn:E.
    + by rewrite (bool_decide_eq_true_2 (is_Some (Some nbrs))) by (by eexists).
    + rewrite (bool_decide_eq_false_2 (is_Some None)); [done|]. by intros [? ?].
  - intros edges g. rewrite degree_value_total, from_edges_lookup.
    destruct (ends_of edges g) as [|x l] eqn:E; [done|].
    do 3 f_equal.
    rewrite (bool_decide_ext (g ∈ (list_to_set (x :: l) : gset string))
                             (g ∈ x :: l)); [done|].
    by rewrite elem_of_list_to_set.
Qed.

Lemma pathway_degree_value_witness :
  ∃ tmp triples,
    read_records sample_fs sample_dirs = Ok tmp
    ∧ tmp = concat triples ∧ length triples = 4
    ∧ value_of <$> tmp !! 0 = Some (Some (VInt 3))
    ∧ value_of <$> tmp !! 9 = Some (Some (VFloat NaN)).
Proof.
  destruct (read_records sample_fs sample_dirs) as [tmp|e] eqn:Htmp;
    [|vm_compute in Htmp; discriminate Htmp].
  destruct (pathway_degree_value sample_fs sample_dirs tmp Htmp)
    as (_ & (triples & Heq & Hall) & _).
  exists tmp, triples. split; [done|]. split; [done|].
  split; [by rewrite <- (Forall2_length _ _ _ Hall)|].
  vm_compute in Htmp. injection Htmp as <-. split; reflexivity.
Defined.

(** ** Lookups that raise *)

Lemma loc_absent df g :
  g ∉ index df → loc df g = Raise (KeyError g).
Proof.
  intros Hg. unfold loc.
  destruct (filter (λ r : string * list cell, r.1 = g) (rows df))
    as [|r rs] eqn:E; [done|].
  exfalso. assert (r ∈ r :: rs) as Hr by apply list_elem_of_here.
  rewrite <- E in Hr. apply list_elem_of_filter in Hr as [Heq Hr].
  apply Hg. unfold index. apply list_elem_of_fmap. by exists r.
Qed.

Lemma loc_present df g :
  g ∈ index df → ∃ sel, loc df g = Ok sel.
Proof.
  intros Hg. unfold loc.
  destruct (filter (λ r : string * list cell, r.1 = g) (rows df))
    as [|r [|r' rs]] eqn:E; [|by eexists..].
  exfalso. unfold index in Hg. apply list_elem_of_fmap in Hg as (r & -> & Hr).
  assert (r ∈ filter (λ r0 : string * list cell, r0.1 = r.1) (rows df)) as Hin
    by by apply list_elem_of_filter.
  rewrite E in Hin. by apply elem_of_nil in Hin.
Qed.

Lemma gene_records_present f graph df g :
  g ∈ index df → ∃ recs, gene_records f graph df g = Ok recs.
Proof.
  intros (sel & Hsel)%loc_present. eexists.
  apply gene_records_ok. eexists _, sel.
  split; [apply degree_value_total|]. by split.
Qed.

Lemma gene_records_absent f graph df g :
  g ∉ index df → gene_records f graph df g = Raise (KeyError g).
Proof.
  intros Hg. unfold gene_records. rewrite degree_value_total.
  unfold_bind. by rewrite (loc_absent df g Hg).
Qed.

(** The first element of a list with a decidable property. *)
Lemma first_such {A} (P : A → Prop) `{∀ x, Decision (P x)} (l : list A) x :
  x ∈ l → P x →
  ∃ before y after, l = before ++ y :: after ∧ P y ∧ Forall (λ z, ¬ P z) before.
Proof.
  intros Hin HP. induction l as [|a l IH]; [by apply elem_of_nil in Hin|].
  destruct (decide (P a)) as [Ha|Ha].
  - exists [], a, l. by split_and!.
  - apply elem_of_cons in Hin as [->|Hin]; [done|].
    destruct (IH Hin) as (before & y & after & -> & Hy & Hb).
    exists (a :: before), y, after. split_and!; [done|done|by constructor].
Qed.

Lemma dir_records_raise_gene fs dir_ f graph df before g after :
  parse_dir dir_ = Ok f → load_graph fs f = Ok graph →
  load_counts fs f = Ok df →
  gene_list f = before ++ g :: after →
  Forall (λ z, z ∈ index df) before → g ∉ index df →
  dir_records fs dir_ = Raise (KeyError g).
Proof.
  intros Hp Hg Hc Hgl Hbefore Habs.
  unfold dir_records, dir_body. unfold_bind. rewrite Hp, Hg, Hc, Hgl.
  set (body := λ g tmp, match gene_records f graph df g with
                        | Ok a => Ok (tmp ++ a) | Raise e => Raise e end).
  assert (Hb : ∀ x s, body x s = (gene_records f graph df x ≫= λ ys, Ok (s ++ ys)))
    by done.
  assert (∃ groups, Forall2 (λ x grp, gene_records f graph df x = Ok grp)
                            before groups) as [groups Hgroups].
  { clear -Hbefore. induction Hbefore as [|z before Hz _ [groups IH]].
    - exists []. constructor.
    - destruct (gene_records_present f graph df z Hz) as [recs Hrecs].
      exists (recs :: groups). by constructor. }
  apply (for_extend_raise _ _ Hb _ _ _ groups); [done|].
  by apply gene_records_absent.
Qed.

Lemma read_data_raise fs pre d rest groups e :
  Forall2 (λ d grp, dir_records fs d = Ok grp) pre groups →
  dir_records fs d = Raise e →
  read_data fs (pre ++ d :: rest) = Raise e.
Proof.
  intros Hpre Hd. unfold read_data, read_records.
  by rewrite (for_extend_raise _ _ (dir_body_extends fs) _ _ _ groups e [] Hpre Hd).
Qed.

Lemma read_data_fails fs dir_list d e :
  d ∈ dir_list → dir_records fs d = Raise e →
  ∃ e', read_data fs dir_list = Raise e'.
Proof.
  intros Hin Hd. unfold read_data, read_records.
  destruct (for_extend_fails _ _ (dir_body_extends fs) dir_list d e [] Hin Hd)
    as [e' He'].
  exists e'. by rewrite He'.
Qed.

(** C4. When the run reaches a directory (the directories before it were
    processed, it parses and its files load into the concatenated table df)
    and a gene symbol g of its gene list is not a row label of df, then
    [df.loc[g]] raises KeyError and read_data ends with the KeyError of the
    first such symbol of the list; the error is not caught and no record
    with a missing mean or std is produced.  Wherever such a directory
    stands in the list, read_data returns no table. *)
Theorem missing_gene_row_key_error fs pre d rest groups f graph df g :
  Forall2 (λ d grp, dir_records fs d = Ok grp) pre groups →
  parse_dir d = Ok f → load_graph fs f = Ok graph →
  load_counts fs f = Ok df →
  g ∈ gene_list f → g ∉ index df →
  loc df g = Raise (KeyError g)
  ∧ gene_records f graph df g = Raise (KeyError g)
  ∧ (∃ before g' after,
       gene_list f = before ++ g' :: after
       ∧ Forall (λ z, z ∈ index df) before ∧ (g' ∉ index df)
       ∧ read_data fs (pre ++ d :: rest) = Raise (KeyError g'))
  ∧ (∀ dir_list, d ∈ dir_list → ∃ e, read_data fs dir_list = Raise e).
Proof.
  intros Hpre Hp Hg Hc Hin Habs.
  split; [by apply loc_absent|]. split; [by apply gene_records_absent|].
  destruct (first_such (λ z, z ∉ index df) (gene_list f) g Hin Habs)
    as (before & g' & after & Hgl & Hg' & Hbefore).
  assert (Forall (λ z, z ∈ index df) before) as Hbefore'.
  { eapply Forall_impl; [exact Hbefore|]. intros z Hz. simpl in Hz.
    by destruct (decide (z ∈ index df)). }
  pose proof (dir_records_raise_gene fs d f graph df before g' after
                Hp Hg Hc Hgl Hbefore' Hg') as Hd.
  split.
  - exists before, g', after. split_and!; [done..|].
    by eapply read_data_raise.
  - intros dir_list Hd'. by eapply read_data_fails.
Qed.

Lemma missing_gene_row_key_error_witness :
  read_data sample_fs
    ["x/y/PathwayA/GeneX/Study1/1/z"; "x/PathwayA/GeneX,GeneW/Study1/1/z";
     "PathwayA/GeneZ/Study1/2/0.1"]
  = Raise (KeyError "GeneW").
Proof.
  assert (∃ grp, dir_records sample_fs "x/y/PathwayA/GeneX/Study1/1/z" = Ok grp)
    as [grp Hgrp] by (eexists; vm_compute; reflexivity).
  assert (∃ graph,
            load_graph sample_fs
              (DirFields "PathwayA" "GeneX,GeneW" "Study1" "1" "z") = Ok graph)
    as [graph Hgraph] by (eexists; vm_compute; reflexivity).
  assert (∃ df,
            load_counts sample_fs
              (DirFields "PathwayA" "GeneX,GeneW" "Study1" "1" "z") = Ok df
            ∧ index df = ["GeneX"; "GeneY"])
    as (df & Hdf & Hidx) by (eexists; split; vm_compute; reflexivity).
  destruct (missing_gene_row_key_error sample_fs
              ["x/y/PathwayA/GeneX/Study1/1/z"]
              "x/PathwayA/GeneX,GeneW/Study1/1/z"
              ["PathwayA/GeneZ/Study1/2/0.1"] [grp]
              (DirFields "PathwayA" "GeneX,GeneW" "Study1" "1" "z")
              graph df "GeneW")
    as (_ & _ & (before & g' & after & Hgl & Hbefore & Hg' & Hraise) & _).
  - constructor; [exact Hgrp|constructor].
  - reflexivity.
  - exact Hgraph.
  - exact Hdf.
  - apply list_elem_of_further, list_elem_of_here.
  - rewrite Hidx. intros H. inversion H as [|? ? ? H']; subst.
    inversion H' as [|? ? ? H'']; subst. inversion H''.
  - cbn [app] in Hraise. rewrite Hraise. do 2 f_equal.
    destruct before as [|b1 [|b2 before]]; cbn [app] in Hgl.
    + injection Hgl as <- _. exfalso. apply Hg'. rewrite Hidx.
      apply list_elem_of_here.
    + injection Hgl as _ <- _. reflexivity.
    + injection Hgl as _ _ Hnil. destruct before; discriminate Hnil.
Defined.

(** ** The columns of the edge list *)

Lemma getitem_absent (df : edge_frame) name :
  name ∉ df.*1 → getitem df name = Raise (KeyError name).
Proof.
  induction df as [|[c values] df IH]; intros Hname; simpl; [done|].
  rewrite fmap_cons, not_elem_of_cons in Hname. destruct Hname as [Hne Hname].
  simpl in Hne. destruct (decide (c = name)); [congruence|]. by apply IH.
Qed.

Lemma getitem_present (df : edge_frame) name :
  name ∈ df.*1 → ∃ values, getitem df name = Ok values.
Proof.
  induction df as [|[c values] df IH]; intros Hname; simpl.
  - by apply elem_of_nil in Hname.
  - destruct (decide (c = name)); [by eexists|].
    rewrite fmap_cons in Hname. apply elem_of_cons in Hname as [Heq|Hname].
    + simpl in Heq. congruence.
    + by apply IH.
Qed.

Lemma dir_records_raise_graph fs dir_ f e :
  parse_dir dir_ = Ok f → load_graph fs f = Raise e →
  dir_records fs dir_ = Raise e.
Proof.
  intros Hp Hg. unfold dir_records, dir_body. unfold_bind. by rewrite Hp, Hg.
Qed.

(** C9. The pathway graph is built from the columns named 'source' and
    'sink' of the edge-list table and from nothing else: two tables that
    agree on these two columns give the same graph.  When the run reaches a
    directory whose edge-list table lacks 'source', read_data ends with
    KeyError 'source'; when it has 'source' but lacks 'sink', with KeyError
    'sink'; with both present the graph is the one of the zipped columns. *)
Theorem edgelist_needs_source_sink fs pre d rest groups f edges :
  Forall2 (λ d grp, dir_records fs d = Ok grp) pre groups →
  parse_dir d = Ok f →
  read_csv fs (pathway_fname f) = Ok edges →
  (∀ edges' : edge_frame,
     getitem edges' "source" = getitem edges "source" →
     getitem edges' "sink" = getitem edges "sink" →
     from_pandas_edgelist edges' "source" "sink"
     = from_pandas_edgelist edges "source" "sink")
  ∧ ("source" ∉ edges.*1 →
     read_data fs (pre ++ d :: rest) = Raise (KeyError "source"))
  ∧ ("source" ∈ edges.*1 → "sink" ∉ edges.*1 →
     read_data fs (pre ++ d :: rest) = Raise (KeyError "sink"))
  ∧ ("source" ∈ edges.*1 → "sink" ∈ edges.*1 →
     ∃ s t, getitem edges "source" = Ok s ∧ getitem edges "sink" = Ok t
            ∧ load_graph fs f = Ok (add_edges_from ∅ (zip s t))).
Proof.
  intros Hpre Hp Hread. split_and!.
  - intros edges' Hs Ht. unfold from_pandas_edgelist. by rewrite Hs, Ht.
  - intros Hsrc. eapply read_data_raise; [done|].
    apply (dir_records_raise_graph fs d f); [done|].
    unfold load_graph, from_pandas_edgelist. rewrite Hread. simpl.
    by rewrite (getitem_absent edges "source" Hsrc).
  - intros (s & Hs)%getitem_present Hsink.
    eapply read_data_raise; [done|].
    apply (dir_records_raise_graph fs d f); [done|].
    unfold load_graph, from_pandas_edgelist. rewrite Hread. simpl.
    rewrite Hs. simpl. by rewrite (getitem_absent edges "sink" Hsink).
  - intros (s & Hs)%getitem_present (t & Ht)%getitem_present.
    exists s, t. split; [done|]. split; [done|].
    unfold load_graph. rewrite Hread. simpl.
    by apply from_pandas_edgelist_ok.
Qed.

Lemma edgelist_needs_source_sink_witness :
  read_data sample_fs
    ["x/y/PathwayA/GeneX/Study1/1/z"; "x/PathwayB/GeneX/Study1/1/z"]
  = Raise (KeyError "sink").
Proof.
  destruct (dir_records sample_fs "x/y/PathwayA/GeneX/Study1/1/z")
    as [grp|e] eqn:Hgrp; [|vm_compute in Hgrp; discriminate Hgrp].
  destruct (edgelist_needs_source_sink sample_fs
              ["x/y/PathwayA/GeneX/Study1/1/z"]
              "x/PathwayB/GeneX/Study1/1/z" [] [grp]
              (DirFields "PathwayB" "GeneX" "Study1" "1" "z")
              [("source", ["GeneX"]); ("target", ["GeneY"])])
    as (_ & _ & Hsink & _).
  - by repeat constructor.
  - reflexivity.
  - reflexivity.
  - apply Hsink.
    + apply list_elem_of_here.
    + intros H. inversion H as [|? ? ? H']; subst.
      inversion H' as [|? ? ? H'']; subst. inversion H''.
Defined.

(** ** Mean and standard deviation *)

Lemma notna_count_dropna values : notna_count values = length (dropna values).
Proof.
  unfold notna_count, dropna.
  induction values as [|c values IH]; [done|]. rewrite filter_cons.
  destruct c as [x|]; simpl.
  - destruct (decide (is_Some (Some x))) as [_|H].
    + simpl. f_equal. exact IH.
    + exfalso. apply H. by eexists.
  - destruct (decide (is_Some (@None Qc))) as [[? H]|_]; [done|]. exact IH.
Qed.

Lemma qsum_fill0 values : qsum (fill0 <$> values) = qsum (dropna values).
Proof.
  unfold dropna, qsum.
  induction values as [|[x|] values IH]; simpl; [done| |].
  - f_equal. exact IH.
  - rewrite Qcplus_0_l. exact IH.
Qed.

Lemma qsum_sqr_masked avg values :
  qsum ((λ c : cell, match c with
                     | Some x => ((avg - x) * (avg - x))%Qc
                     | None => 0%Qc
                     end) <$> values)
  = qsum ((λ x, ((x - avg) * (x - avg))%Qc) <$> dropna values).
Proof.
  unfold dropna, qsum.
  induction values as [|[x|] values IH]; simpl; [done| |].
  - f_equal; [ring|exact IH].
  - rewrite Qcplus_0_l. exact IH.
Qed.

Lemma nanmean_spec values : nanmean values = mean_of_present values.
Proof.
  unfold nanmean, mean_of_present.
  rewrite notna_count_dropna, qsum_fill0.
  by destruct (dropna values).
Qed.

Lemma nanstd_spec values : nanstd 1 values = sample_std_of_present values.
Proof.
  unfold nanstd, nanvar, sample_std_of_present, sample_variance.
  rewrite notna_count_dropna, qsum_fill0, qsum_sqr_masked.
  destruct (dropna values) as [|x [|y xs]]; done.
Qed.

Lemma of_nat_nonzero n : n ≠ 0 → of_nat n ≠ 0%Qc.
Proof.
  intros Hn H. unfold of_nat, of_Z in H.
  change 0%Qc with (Q2Qc 0) in H. apply Q2Qc_eq_iff in H.
  unfold Qeq in H. simpl in H. lia.
Qed.

(** C10. On a row of the concatenated table, [.mean()] is the arithmetic
    mean of the non-missing entries and [.std()] the sample standard
    deviation (divisor n-1) of the non-missing entries: missing entries are
    skipped, not propagated.  A row without a non-missing entry has mean
    NaN, a row with fewer than two has std NaN; neither raises, so the
    records of such a gene are still emitted. *)
Theorem mean_std_skip_missing (values : list cell) :
  nanmean values = mean_of_present values
  ∧ nanstd 1 values = sample_std_of_present values
  ∧ (length (dropna values) < 1 → nanmean values = NaN)
  ∧ (length (dropna values) < 2 → nanstd 1 values = NaN)
  ∧ (2 ≤ length (dropna values) →
     nanstd 1 values = np_sqrt (sample_variance (dropna values))
     ∧ (sample_variance (dropna values)
        * of_nat (length (dropna values) - 1))%Qc
       = qsum ((λ x, let m := (qsum (dropna values)
                               / of_nat (length (dropna values)))%Qc in
                     ((x - m) * (x - m))%Qc) <$> dropna values))
  ∧ (∀ f graph df g,
       loc df g = Ok (Series values) →
       ∃ deg,
         gene_records f graph df g
         = Ok [ record "pathway_degree" (gene f) (pathway f ++ " -- " ++ g) deg;
                record "expression_count_mean" (gene f)
                       (treatment f ++ " -- " ++ g)
                       (VFloat (mean_of_present values));
                record "expression_count_std" (gene f)
                       (treatment f ++ " -- " ++ g)
                       (VFloat (sample_std_of_present values)) ]).
Proof.
  split; [apply nanmean_spec|]. split; [apply nanstd_spec|]. split_and!.
  - intros H. rewrite nanmean_spec. unfold mean_of_present.
    destruct (dropna values); [done|simpl in H; lia].
  - intros H. rewrite nanstd_spec. unfold sample_std_of_present.
    apply Nat.ltb_lt in H. by rewrite H.
  - intros H. split.
    + rewrite nanstd_spec. unfold sample_std_of_present.
      apply Nat.ltb_ge in H. by rewrite H.
    + unfold sample_variance. cbv zeta. field.
      apply of_nat_nonzero. lia.
  - intros f graph df g Hloc. eexists. apply gene_records_ok.
    eexists _, (Series values). split; [apply degree_value_total|].
    split; [done|]. simpl. by rewrite nanmean_spec, nanstd_spec.
Qed.

Lemma mean_std_skip_missing_witness :
  nanmean [q 4; None; q 6] = Num (of_Z 5)
  ∧ nanstd 1 [q 4; None; q 6] = Sqrt (of_Z 2)
  ∧ nanstd 1 [None; q 1] = NaN
  ∧ nanmean [None; None] = NaN.
Proof.
  destruct (mean_std_skip_missing [q 4; None; q 6]) as (Hm & Hs & _ & _ & H2 & _).
  destruct (mean_std_skip_missing [None; q 1]) as (_ & _ & _ & H1 & _).
  destruct (mean_std_skip_missing [None; None]) as (_ & _ & H0 & _).
  split_and!.
  - rewrite Hm. unfold mean_of_present. simpl.
    f_equal; apply Qc_is_canon; reflexivity.
  - destruct H2 as [-> _]; [simpl; lia|].
    unfold np_sqrt. vm_compute. f_equal; apply Qc_is_canon; reflexivity.
  - apply H1. simpl. lia.
  - apply H0. simpl. lia.
Defined.

(** ** The two expression records of a gene *)

Lemma jobs_loaded fs dir_list :
  Forall (λ j : job,
            let '(f, graph, df, g) := j in
            load_graph fs f = Ok graph ∧ load_counts fs f = Ok df
            ∧ g ∈ gene_list f)
         (jobs fs dir_list).
Proof.
  unfold jobs. induction dir_list as [|d ds IH]; simpl; [constructor|].
  apply Forall_app. split; [|exact IH].
  unfold jobs_of_dir. destruct (parse_dir d) as [f|e]; [|constructor].
  destruct (load_graph fs f) as [graph|e] eqn:Hg; [|constructor].
  destruct (load_counts fs f) as [df|e] eqn:Hc; [|constructor].
  apply Forall_fmap, Forall_forall. intros g Hin. by simpl.
Qed.

(** C6. In a run that succeeds, the expression_count_mean record and the
    expression_count_std record of a gene symbol are computed from the same
    selection [df.loc[g]] of the same table df, the side-by-side
    concatenation of the two count files of the directory.  Line 48 and
    line 54 evaluate [df.loc[g]] separately, and both evaluations return
    this selection; when it is a single row, both values are reductions of
    the same non-missing entries of that row. *)
Theorem mean_std_same_row fs dir_list tmp :
  read_records fs dir_list = Ok tmp →
  ∃ triples,
    tmp = concat triples
    ∧ Forall2 (λ (j : job) t,
         let '(f, graph, df, g) := j in
         load_counts fs f = Ok df
         ∧ ∃ r_deg sel,
             loc df g = Ok sel
             ∧ t = [ r_deg;
                     record "expression_count_mean" (gene f)
                            (treatment f ++ " -- " ++ g) (sel_mean sel);
                     record "expression_count_std" (gene f)
                            (treatment f ++ " -- " ++ g) (sel_std sel) ]
             ∧ (∀ values, sel = Series values →
                  sel_mean sel = VFloat (mean_of_present values)
                  ∧ sel_std sel = VFloat (sample_std_of_present values)))
       (jobs fs dir_list) triples.
Proof.
  intros (triples & H & ->)%read_records_jobs. exists triples.
  split; [done|]. pose proof (jobs_loaded fs dir_list) as Hloaded.
  induction H as [|j t js ts Hj _ IH]; [constructor|].
  inversion Hloaded as [|? ? Hj' Hjs]; subst. constructor; [|by apply IH].
  destruct j as [[[f graph] df] g]. simpl in Hj. destruct Hj' as (_ & Hc & _).
  split; [done|].
  apply gene_records_ok in Hj as (deg & sel & _ & Hsel & ->).
  eexists _, sel. split; [done|]. split; [done|].
  intros values ->. simpl. by rewrite nanmean_spec, nanstd_spec.
Qed.

Lemma mean_std_same_row_witness :
  ∃ tmp triples,
    read_records sample_fs sample_dirs = Ok tmp
    ∧ tmp = concat triples ∧ length triples = 4
    ∧ value_of <$> tmp !! 4 = Some (Some (VFloat (Num (of_Z 5))))
    ∧ value_of <$> tmp !! 5 = Some (Some (VFloat (Sqrt (of_Z 2)))).
Proof.
  destruct (read_records sample_fs sample_dirs) as [tmp|e] eqn:Htmp;
    [|vm_compute in Htmp; discriminate Htmp].
  destruct (mean_std_same_row sample_fs sample_dirs tmp Htmp)
    as (triples & Heq & Hall).
  exists tmp, triples. split; [done|]. split; [done|].
  split; [by rewrite <- (Forall2_length _ _ _ Hall)|].
  vm_compute in Htmp. injection Htmp as <-.
  split; vm_compute; do 4 f_equal; apply Qc_is_canon; reflexivity.
Defined.

(** ** The scenario of the specification *)

Ltac qc_eq :=
  repeat match goal with
         | |- _ = _ =>
             first [ reflexivity | apply Qc_is_canon; reflexivity | f_equal ]
         end.

Lemma scenario_run fs cols_wt cols_mt :
  read_csv fs "results/pathways/csv_files/PathwayA.csv"
    = Ok [("source", ["GeneX"]); ("sink", ["GeneY"])] →
  read_csv_index_col0 fs "resources/data/Study1/Counts_Ctrl_1.csv"
    = Ok (Frame cols_wt [("GeneX", [q 1; q 2; q 3])]) →
  read_csv_index_col0 fs "resources/data/Study1/Counts_GeneX_1.csv"
    = Ok (Frame cols_mt [("GeneX", [q 1; q 2; q 3])]) →
  read_data fs [scenario_dir]
  = Ok (MkDataFrame
          ["type"; "gene"; "source"; "value"]
          [ [VStr "pathway_degree"; VStr "GeneX"; VStr "PathwayA -- GeneX";
             VFloat (Num (of_Z 1))];
            [VStr "expression_count_mean"; VStr "GeneX"; VStr "1 -- GeneX";
             VFloat (Num (of_Z 2))];
            [VStr "expression_count_std"; VStr "GeneX"; VStr "1 -- GeneX";
             VFloat (Sqrt (Q2Qc (4 # 5)))] ]).
Proof.
  intros Hp Hwt Hmt.
  unfold read_data, read_records, for_, dir_body.
  replace (parse_dir scenario_dir)
    with (Ok (DirFields "PathwayA" "GeneX" "Study1" "1" "z")) by reflexivity.
  unfold_bind. unfold load_graph, load_counts. unfold_bind.
  change (pathway_fname _) with "results/pathways/csv_files/PathwayA.csv".
  change (data_wt_fname _) with "resources/data/Study1/Counts_Ctrl_1.csv".
  change (data_mt_fname _) with "resources/data/Study1/Counts_GeneX_1.csv".
  rewrite Hp, Hwt, Hmt. vm_compute. qc_eq.
Qed.

(** C3, as the code has it. In the scenario (directory
    x/y/PathwayA/GeneX/Study1/1/z, the single edge GeneX-GeneY, the row
    GeneX = 1, 2, 3 in both count files) read_data yields exactly three
    records: pathway_degree with value 1, expression_count_mean with value
    2, and expression_count_std with value sqrt(4/5), about 0.894: the two
    count files are concatenated side by side, so mean and std are taken
    over the six entries 1, 2, 3, 1, 2, 3.  The value 1 is the sample
    standard deviation of the three entries of one file alone. *)
Theorem scenario_records fs cols_wt cols_mt :
  read_csv fs "results/pathways/csv_files/PathwayA.csv"
    = Ok [("source", ["GeneX"]); ("sink", ["GeneY"])] →
  read_csv_index_col0 fs "resources/data/Study1/Counts_Ctrl_1.csv"
    = Ok (Frame cols_wt [("GeneX", [q 1; q 2; q 3])]) →
  read_csv_index_col0 fs "resources/data/Study1/Counts_GeneX_1.csv"
    = Ok (Frame cols_mt [("GeneX", [q 1; q 2; q 3])]) →
  read_data fs [scenario_dir]
  = Ok (MkDataFrame
          ["type"; "gene"; "source"; "value"]
          [ [VStr "pathway_degree"; VStr "GeneX"; VStr "PathwayA -- GeneX";
             VFloat (Num (of_Z 1))];
            [VStr "expression_count_mean"; VStr "GeneX"; VStr "1 -- GeneX";
             VFloat (Num (of_Z 2))];
            [VStr "expression_count_std"; VStr "GeneX"; VStr "1 -- GeneX";
             VFloat (Sqrt (Q2Qc (4 # 5)))] ])
  ∧ nanstd 1 [q 1; q 2; q 3; q 1; q 2; q 3] = Sqrt (Q2Qc (4 # 5))
  ∧ nanstd 1 [q 1; q 2; q 3] = Num (of_Z 1).
Proof.
  intros Hp Hwt Hmt. split; [by apply (scenario_run fs cols_wt cols_mt)|].
  split; vm_compute; qc_eq.
Qed.

Lemma scenario_records_witness :
  ∃ df, read_data scenario_fs [scenario_dir] = Ok df
        ∧ (λ row : list pyval, row !! 3) <$> df_data df
          = [Some (VFloat (Num (of_Z 1))); Some (VFloat (Num (of_Z 2)));
             Some (VFloat (Sqrt (Q2Qc (4 # 5))))].
Proof.
  destruct (scenario_records scenario_fs ["s1"; "s2"; "s3"] ["s4"; "s5"; "s6"])
    as (Hrun & _); [reflexivity..|].
  eexists. split; [exact Hrun|]. reflexivity.
Defined.

(** C3 as stated fails: the std record of the scenario does not hold 1. *)
Lemma scenario_std_is_not_one :
  read_data scenario_fs [scenario_dir]
  ≠ Ok (MkDataFrame
          ["type"; "gene"; "source"; "value"]
          [ [VStr "pathway_degree"; VStr "GeneX"; VStr "PathwayA -- GeneX";
             VFloat (Num (of_Z 1))];
            [VStr "expression_count_mean"; VStr "GeneX"; VStr "1 -- GeneX";
             VFloat (Num (of_Z 2))];
            [VStr "expression_count_std"; VStr "GeneX"; VStr "1 -- GeneX";
             VFloat (Num (of_Z 1))] ]).
Proof.
  rewrite (scenario_run scenario_fs ["s1"; "s2"; "s3"] ["s4"; "s5"; "s6"])
    by reflexivity.
  intros H. discriminate H.
Qed.

(** ** Further properties of read_data *)

Lemma for_app {A S} (body : A → S → result S) l1 l2 s :
  for_ (l1 ++ l2) body s
  = match for_ l1 body s with
    | Ok s' => for_ l2 body s'
    | Raise e => Raise e
    end.
Proof.
  revert s. induction l1 as [|x l1 IH]; intros s; simpl; [done|].
  destruct (body x s); [apply IH|done].
Qed.

Lemma for_extend_acc {A B} (F : A → result (list B)) body l s :
  (∀ x s, body x s = (F x ≫= λ ys, Ok (s ++ ys))) →
  for_ l body s = (for_ l body [] ≫= λ t, Ok (s ++ t)).
Proof.
  intros Hbody. revert s. induction l as [|x l IH]; intros s; simpl.
  - unfold_bind. by rewrite app_nil_r.
  - rewrite !Hbody. unfold_bind. destruct (F x) as [ys|e]; [|done].
    rewrite (IH (s ++ ys)), (IH ([] ++ ys)). unfold_bind.
    destruct (for_ l body []); [|done]. simpl. by rewrite app_assoc.
Qed.

(** The directories are processed one after the other and independently:
    the records of a list are the records of its front part followed by
    those of its back part, and the first exception met ends the run. *)
Theorem read_records_app fs l1 l2 :
  read_records fs (l1 ++ l2)
  = (read_records fs l1 ≫= λ t1,
     read_records fs l2 ≫= λ t2, Ok (t1 ++ t2)).
Proof.
  unfold read_records. rewrite for_app. unfold_bind.
  destruct (for_ l1 (dir_body fs) []) as [t1|e]; [|done].
  by rewrite (for_extend_acc (dir_records fs) _ l2 t1 (dir_body_extends fs)).
Qed.

Lemma split_app_sep sep (a b : string) :
  Str.split sep (a ++ String sep b)%string = Str.split sep a ++ Str.split sep b.
Proof.
  induction a as [|c a IH]; simpl.
  - by rewrite Ascii.eqb_refl.
  - destruct (Ascii.eqb c sep); [by rewrite IH|].
    rewrite IH. pose proof (split_not_nil sep a) as Hne.
    by destruct (Str.split sep a).
Qed.

Lemma unpack_last5_app (l1 l2 : list string) :
  5 ≤ length l2 → unpack_last5 (l1 ++ l2) = unpack_last5 l2.
Proof.
  intros H. unfold unpack_last5. rewrite rev_app_distr.
  rewrite <- length_rev in H.
  destruct (rev l2) as [|e [|d [|c [|b [|a r]]]]]; simpl in H; try lia. done.
Qed.

Lemma for_fmap_ext {A S} (f : A → A) (body : A → S → result S) l s :
  Forall (λ x, ∀ s, body (f x) s = body x s) l →
  for_ (f <$> l) body s = for_ l body s.
Proof.
  intros H. revert s. induction H as [|x l Hx _ IH]; intros s; simpl; [done|].
  rewrite Hx. destruct (body x s); [apply IH|done].
Qed.

(** Only the last five segments of a directory string matter: putting any
    path in front of directories that already have five segments changes
    neither the parsed fields nor the result of read_data. *)
Theorem leading_path_irrelevant fs (prefix : string) dir_list :
  Forall (λ d, 5 ≤ length (Str.split "/" d)) dir_list →
  Forall (λ d, parse_dir (prefix ++ "/" ++ d)%string = parse_dir d) dir_list
  ∧ read_data fs ((λ d, (prefix ++ "/" ++ d)%string) <$> dir_list)
    = read_data fs dir_list.
Proof.
  intros H.
  assert (Forall (λ d, parse_dir (prefix ++ "/" ++ d)%string = parse_dir d)
                 dir_list) as Hparse.
  { eapply Forall_impl; [exact H|]. intros d Hd. unfold parse_dir.
    change (prefix ++ "/" ++ d)%string with (prefix ++ String "/" d)%string.
    rewrite split_app_sep. by apply unpack_last5_app. }
  split; [done|]. unfold read_data, read_records. f_equal.
  apply for_fmap_ext. eapply Forall_impl; [exact Hparse|].
  intros d Hd s. unfold dir_body. by rewrite Hd.
Qed.

Lemma leading_path_irrelevant_witness :
  read_data sample_fs
    ((λ d, ("/home/user/project" ++ "/" ++ d)%string) <$> sample_dirs)
  = read_data sample_fs sample_dirs.
Proof.
  refine (proj2 (leading_path_irrelevant sample_fs "/home/user/project"
                   sample_dirs _)).
  unfold sample_dirs.
  repeat (constructor; [vm_compute; lia|]). constructor.
Defined.

Lemma dir_records_raise_counts fs dir_ f graph e :
  parse_dir dir_ = Ok f → load_graph fs f = Ok graph →
  load_counts fs f = Raise e →
  dir_records fs dir_ = Raise e.
Proof.
  intros Hp Hg Hc. unfold dir_records, dir_body. unfold_bind.
  by rewrite Hp, Hg, Hc.
Qed.

(** A missing input file ends read_data with FileNotFoundError for the
    interpolated path, once the run reaches the directory.  The files are
    opened in the order pathway edge list, control counts, mutant counts,
    so the error names the first of them that is missing; the mutant file
    name carries the whole gene segment, commas included. *)
Theorem missing_file_error fs pre d rest groups f :
  Forall2 (λ d grp, dir_records fs d = Ok grp) pre groups →
  parse_dir d = Ok f →
  (plain fs !! pathway_fname f = None →
   read_data fs (pre ++ d :: rest)
   = Raise (FileNotFoundError
              ("results/pathways/csv_files/" ++ pathway f ++ ".csv")))
  ∧ (∀ graph, load_graph fs f = Ok graph →
       indexed fs !! data_wt_fname f = None →
       read_data fs (pre ++ d :: rest)
       = Raise (FileNotFoundError
                  ("resources/data/" ++ study f ++ "/Counts_Ctrl_"
                   ++ treatment f ++ ".csv")))
  ∧ (∀ graph, load_graph fs f = Ok graph →
       is_Some (indexed fs !! data_wt_fname f) →
       indexed fs !! data_mt_fname f = None →
       read_data fs (pre ++ d :: rest)
       = Raise (FileNotFoundError
                  ("resources/data/" ++ study f ++ "/Counts_" ++ gene f
                   ++ "_" ++ treatment f ++ ".csv"))).
Proof.
  intros Hpre Hp. split_and!.
  - intros Hnone. eapply read_data_raise; [done|].
    apply (dir_records_raise_graph fs d f); [done|].
    unfold load_graph, read_csv. by rewrite Hnone.
  - intros graph Hg Hnone. eapply read_data_raise; [done|].
    apply (dir_records_raise_counts fs d f graph); [done..|].
    unfold load_counts, read_csv_index_col0. by rewrite Hnone.
  - intros graph Hg [df_wt Hwt] Hnone. eapply read_data_raise; [done|].
    apply (dir_records_raise_counts fs d f graph); [done..|].
    unfold load_counts, read_csv_index_col0. rewrite Hwt. simpl.
    by rewrite Hnone.
Qed.

Lemma missing_file_error_witness :
  read_data sample_fs
    ["x/y/PathwayA/GeneX/Study1/1/z"; "x/PathwayA/GeneY,GeneZ/Study1/1/z"]
  = Raise (FileNotFoundError "resources/data/Study1/Counts_GeneY,GeneZ_1.csv").
Proof.
  assert (∃ grp, dir_records sample_fs "x/y/PathwayA/GeneX/Study1/1/z" = Ok grp)
    as [grp Hgrp] by (eexists; vm_compute; reflexivity).
  assert (∃ graph,
            load_graph sample_fs
              (DirFields "PathwayA" "GeneY,GeneZ" "Study1" "1" "z") = Ok graph)
    as [graph Hgraph] by (eexists; vm_compute; reflexivity).
  destruct (missing_file_error sample_fs ["x/y/PathwayA/GeneX/Study1/1/z"]
              "x/PathwayA/GeneY,GeneZ/Study1/1/z" [] [grp]
              (DirFields "PathwayA" "GeneY,GeneZ" "Study1" "1" "z"))
    as (_ & _ & Hmt).
  - constructor; [exact Hgrp|constructor].
  - reflexivity.
  - apply (Hmt graph Hgraph).
    + eexists. vm_compute. reflexivity.
    + vm_compute. reflexivity.
Defined.

(** ** Further properties of the pathway graph *)

Lemma elem_of_ends_of edges n x :
  x ∈ ends_of edges n ↔ (n, x) ∈ edges ∨ (x, n) ∈ edges.
Proof.
  induction edges as [|[u v] edges IH].
  - split; [by intros ?%elem_of_nil|]. by intros [?%elem_of_nil|?%elem_of_nil].
  - rewrite ends_of_cons, elem_of_app, IH, !elem_of_cons.
    unfold ends_of. simpl.
    destruct (decide (u = n)) as [->|Hu], (decide (v = n)) as [->|Hv]; simpl;
      rewrite ?elem_of_cons, ?elem_of_nil; naive_solver.
Qed.

(** The pathway graph is undirected and simple: it depends only on which
    unordered pairs of genes occur as rows of the edge list.  Swapping
    source and sink, repeating a row or reordering the rows changes no
    neighbourhood and hence no degree; adjacency is symmetric. *)
Theorem graph_of_edge_set edges edges' :
  (∀ u v, (u, v) ∈ edges ∨ (v, u) ∈ edges
          ↔ (u, v) ∈ edges' ∨ (v, u) ∈ edges') →
  add_edges_from (∅ : Graph) edges = add_edges_from ∅ edges'
  ∧ (∀ g, degree_value (add_edges_from ∅ edges) g
          = degree_value (add_edges_from ∅ edges') g)
  ∧ (∀ u v, v ∈ neighbours (add_edges_from ∅ edges) u
            ↔ u ∈ neighbours (add_edges_from ∅ edges) v).
Proof.
  intros H.
  assert (add_edges_from (∅ : Graph) edges = add_edges_from ∅ edges') as Heq.
  { apply map_eq. intros n. rewrite !from_edges_lookup.
    assert (∀ x, x ∈ ends_of edges n ↔ x ∈ ends_of edges' n) as Hends.
    { intros x. rewrite !elem_of_ends_of. apply H. }
    destruct (ends_of edges n) as [|x l], (ends_of edges' n) as [|x' l'].
    - done.
    - exfalso. eapply elem_of_nil, Hends, list_elem_of_here.
    - exfalso. eapply elem_of_nil, Hends, list_elem_of_here.
    - f_equal. apply set_eq. intros y. rewrite !elem_of_list_to_set. apply Hends. }
  split; [done|]. split; [by rewrite Heq|].
  assert (∀ u v, v ∈ neighbours (add_edges_from (∅ : Graph) edges) u
                 ↔ v ∈ ends_of edges u) as Hnb.
  { intros u v. unfold neighbours. rewrite from_edges_lookup.
    destruct (ends_of edges u) as [|x l].
    - simpl. split; [by intros ?%elem_of_empty|by intros ?%elem_of_nil].
    - change (v ∈ (list_to_set (x :: l) : gset string) ↔ v ∈ x :: l).
      apply elem_of_list_to_set. }
  intros u v. rewrite !Hnb, !elem_of_ends_of. naive_solver.
Qed.

Lemma graph_of_edge_set_witness :
  add_edges_from (∅ : Graph) [("GeneX", "GeneY"); ("GeneY", "GeneW")]
  = add_edges_from ∅
      [("GeneW", "GeneY"); ("GeneY", "GeneX"); ("GeneX", "GeneY")].
Proof.
  refine (proj1 (graph_of_edge_set _ _ _)).
  intros u v. rewrite !elem_of_cons, !elem_of_nil. naive_solver.
Defined.

(** ** The concatenated count table *)

Lemma reindex_row_cons cols l r rs g :
  reindex_row (Frame cols ((l, r) :: rs)) g
  = if decide (l = g) then r else reindex_row (Frame cols rs) g.
Proof.
  unfold reindex_row. simpl. destruct (decide (l = g)); [done|].
  by destruct (list_find _ rs) as [[i [l' r']]|].
Qed.

Lemma reindex_row_absent f g :
  g ∉ index f → reindex_row f g = replicate (length (columns f)) None.
Proof.
  destruct f as [cols rs]. unfold index. simpl.
  induction rs as [|[l r] rs IH]; intros Hg; [done|].
  rewrite fmap_cons, not_elem_of_cons in Hg. destruct Hg as [Hne Hg].
  rewrite reindex_row_cons. simpl in Hne.
  destruct (decide (l = g)); [congruence|]. by apply IH.
Qed.

Lemma filter_label_fmap (F : string → list cell) labels g :
  NoDup labels →
  filter (λ r : string * list cell, r.1 = g) ((λ l, (l, F l)) <$> labels)
  = if decide (g ∈ labels) then [(g, F g)] else [].
Proof.
  induction 1 as [|l labels Hl Hnd IH]; [done|].
  rewrite fmap_cons, filter_cons. simpl.
  destruct (decide (l = g)) as [->|Hne].
  - rewrite IH. rewrite (decide_False (P := g ∈ labels)) by done.
    by rewrite (decide_True (P := g ∈ g :: labels)) by apply list_elem_of_here.
  - rewrite IH. destruct (decide (g ∈ labels)) as [Hin|Hout].
    + by rewrite (decide_True (P := g ∈ l :: labels))
        by by apply list_elem_of_further.
    + rewrite (decide_False (P := g ∈ l :: labels)); [done|].
      rewrite not_elem_of_cons. by split.
Qed.

Lemma filter_label_zip (ra rb : list (string * list cell)) ca cb g :
  ra.*1 = rb.*1 → NoDup ra.*1 →
  filter (λ r : string * list cell, r.1 = g)
         (zip_with (λ x y, (x.1, x.2 ++ y.2)) ra rb)
  = if decide (g ∈ ra.*1)
    then [(g, reindex_row (Frame ca ra) g ++ reindex_row (Frame cb rb) g)]
    else [].
Proof.
  revert rb. induction ra as [|[l r] ra IH]; intros [|[l' r'] rb] Heq Hnd;
    try done.
  rewrite !fmap_cons in Heq. simpl in Heq. injection Heq as <- Heq.
  rewrite fmap_cons in Hnd. apply NoDup_cons in Hnd as [Hl Hnd].
  simpl zip_with. rewrite filter_cons, !reindex_row_cons, (IH rb Heq Hnd).
  change (((l, r) :: ra).*1) with (l :: ra.*1).
  simpl. destruct (decide (l = g)) as [->|Hne].
  - rewrite (decide_False (P := g ∈ ra.*1)) by done.
    by rewrite (decide_True (P := g ∈ g :: ra.*1)) by apply list_elem_of_here.
  - destruct (decide (g ∈ ra.*1)) as [Hin|Hout].
    + by rewrite (decide_True (P := g ∈ l :: ra.*1))
        by by apply list_elem_of_further.
    + rewrite (decide_False (P := g ∈ l :: ra.*1)); [done|].
      rewrite not_elem_of_cons. by split.
Qed.

Lemma dropna_pad r n : dropna (r ++ replicate n None) = dropna r.
Proof.
  unfold dropna. rewrite omap_app.
  assert (omap id (replicate n (@None Qc)) = []) as ->; [|by rewrite app_nil_r].
  by induction n.
Qed.

Lemma loc_of_filter df g r :
  filter (λ r : string * list cell, r.1 = g) (rows df) = [r] →
  loc df g = Ok (Series r.2).
Proof. intros H. unfold loc. by rewrite H. Qed.

Lemma loc_of_filter_nil df g :
  filter (λ r : string * list cell, r.1 = g) (rows df) = [] →
  loc df g = Raise (KeyError g).
Proof. intros H. unfold loc. by rewrite H. Qed.

(** Count files with unique row labels always concatenate.  In the
    concatenated table the row of a gene is its row in the control file
    followed by its row in the mutant file, a file that lacks the gene
    contributing one missing entry per column; a gene in neither file is a
    KeyError.  For a gene that only the control file has, mean and std are
    those of the control row alone: the missing entries are skipped. *)
Theorem concat_row a b g :
  NoDup (index a) → NoDup (index b) →
  ∃ df,
    concat_axis1 a b = Ok df
    ∧ columns df = columns a ++ columns b
    ∧ (g ∈ index a ∨ g ∈ index b →
       loc df g = Ok (Series (reindex_row a g ++ reindex_row b g)))
    ∧ (g ∉ index a → g ∉ index b → loc df g = Raise (KeyError g))
    ∧ (g ∉ index b →
       reindex_row b g = replicate (length (columns b)) None
       ∧ sel_mean (Series (reindex_row a g ++ reindex_row b g))
         = sel_mean (Series (reindex_row a g))
       ∧ sel_std (Series (reindex_row a g ++ reindex_row b g))
         = sel_std (Series (reindex_row a g))).
Proof.
  intros Ha Hb.
  assert (g ∉ index b →
          reindex_row b g = replicate (length (columns b)) None
          ∧ sel_mean (Series (reindex_row a g ++ reindex_row b g))
            = sel_mean (Series (reindex_row a g))
          ∧ sel_std (Series (reindex_row a g ++ reindex_row b g))
            = sel_std (Series (reindex_row a g))) as Hpad.
  { intros Hg. rewrite (reindex_row_absent b g Hg). split; [done|]. simpl.
    rewrite !nanmean_spec, !nanstd_spec.
    unfold mean_of_present, sample_std_of_present. by rewrite dropna_pad. }
  unfold concat_axis1. destruct (decide (index a = index b)) as [Heq|Hne].
  - eexists. split; [done|]. split; [done|].
    destruct a as [ca ra], b as [cb rb]. unfold index in *. simpl in *.
    split_and!; [| |done].
    + intros Hin. assert (g ∈ ra.*1) as Hin' by (destruct Hin; congruence).
      rewrite (loc_of_filter _ g (g, reindex_row (Frame ca ra) g
                                     ++ reindex_row (Frame cb rb) g)); [done|].
      simpl. rewrite (filter_label_zip ra rb ca cb g Heq Ha).
      by rewrite decide_True.
    + intros Hga _. apply loc_of_filter_nil. simpl.
      rewrite (filter_label_zip ra rb ca cb g Heq Ha).
      by rewrite decide_False.
  - rewrite !bool_decide_eq_true_2 by done. simpl.
    eexists. split; [done|]. split; [done|].
    assert (NoDup (index a ++ filter (λ l, l ∉ index a) (index b))) as Hnd.
    { apply NoDup_app. split; [done|]. split.
      - intros x Hx [Hx' _]%list_elem_of_filter. done.
      - by apply NoDup_filter. }
    assert (g ∈ index a ++ filter (λ l, l ∉ index a) (index b)
            ↔ g ∈ index a ∨ g ∈ index b) as Hin.
    { rewrite elem_of_app, list_elem_of_filter.
      destruct (decide (g ∈ index a)); naive_solver. }
    split_and!; [| |done].
    + intros Hg%Hin.
      rewrite (loc_of_filter _ g (g, reindex_row a g ++ reindex_row b g));
        [done|].
      simpl. rewrite (filter_label_fmap
                        (λ l, reindex_row a l ++ reindex_row b l) _ g Hnd).
      by rewrite decide_True.
    + intros Hga Hgb. apply loc_of_filter_nil. simpl.
      rewrite (filter_label_fmap
                 (λ l, reindex_row a l ++ reindex_row b l) _ g Hnd).
      rewrite decide_False; [done|]. rewrite Hin. naive_solver.
Qed.

Lemma concat_row_witness :
  ∃ df,
    concat_axis1 (Frame ["c1"] [("GeneZ", [q 5]); ("GeneQ", [q 3])])
                 (Frame ["m1"; "m2"] [("GeneZ", [q 7; q 9])]) = Ok df
    ∧ loc df "GeneQ" = Ok (Series [q 3; None; None])
    ∧ loc df "GeneZ" = Ok (Series [q 5; q 7; q 9]).
Proof.
  destruct (concat_row (Frame ["c1"] [("GeneZ", [q 5]); ("GeneQ", [q 3])])
              (Frame ["m1"; "m2"] [("GeneZ", [q 7; q 9])]) "GeneQ")
    as (df & Hdf & _ & HQ & _).
  - apply (bool_decide_unpack (NoDup _)). vm_compute. exact I.
  - apply (bool_decide_unpack (NoDup _)). vm_compute. exact I.
  - exists df. split; [done|]. split.
    + apply HQ. left. apply list_elem_of_further, list_elem_of_here.
    + vm_compute in Hdf. injection Hdf as <-. reflexivity.
Defined.

(** Count files whose row labels differ cannot be concatenated when one of
    them repeats a label: pd.concat raises InvalidIndexError, which ends
    read_data once the run reaches the directory.  Files with the same row
    labels in the same order concatenate even with repeated labels. *)
Theorem repeated_labels_error fs pre d rest groups f graph a b :
  Forall2 (λ d grp, dir_records fs d = Ok grp) pre groups →
  parse_dir d = Ok f → load_graph fs f = Ok graph →
  read_csv_index_col0 fs (data_wt_fname f) = Ok a →
  read_csv_index_col0 fs (data_mt_fname f) = Ok b →
  (index a ≠ index b → ¬ NoDup (index a) ∨ ¬ NoDup (index b) →
   concat_axis1 a b = Raise InvalidIndexError
   ∧ read_data fs (pre ++ d :: rest) = Raise InvalidIndexError)
  ∧ (index a = index b → ∃ df, load_counts fs f = Ok df).
Proof.
  intros Hpre Hp Hg Hwt Hmt. split.
  - intros Hne Hdup.
    assert (concat_axis1 a b = Raise InvalidIndexError) as Hc.
    { unfold concat_axis1. rewrite decide_False by done.
      destruct Hdup as [Hdup|Hdup].
      - by rewrite (bool_decide_eq_false_2 _ Hdup).
      - rewrite (bool_decide_eq_false_2 _ Hdup). by rewrite andb_false_r. }
    split; [done|]. eapply read_data_raise; [done|].
    apply (dir_records_raise_counts fs d f graph); [done..|].
    unfold load_counts. by rewrite Hwt, Hmt.
  - intros Heq. unfold load_counts. rewrite Hwt, Hmt. simpl.
    unfold concat_axis1. rewrite decide_True by done. by eexists.
Qed.

Lemma repeated_labels_error_witness :
  read_data sample_fs ["x/y/PathwayA/GeneX/Study2/1/z"]
  = Raise InvalidIndexError.
Proof.
  assert (∃ graph,
            load_graph sample_fs
              (DirFields "PathwayA" "GeneX" "Study2" "1" "z") = Ok graph)
    as [graph Hgraph] by (eexists; vm_compute; reflexivity).
  destruct (repeated_labels_error sample_fs [] "x/y/PathwayA/GeneX/Study2/1/z"
              [] [] (DirFields "PathwayA" "GeneX" "Study2" "1" "z") graph
              (Frame ["c1"] [("GeneX", [q 1]); ("GeneX", [q 2])])
              (Frame ["m1"] [("GeneX", [q 3])]))
    as [Herr _].
  - constructor.
  - reflexivity.
  - exact Hgraph.
  - vm_compute. reflexivity.
  - vm_compute. reflexivity.
  - apply Herr.
    + discriminate.
    + left. intros Hnd. inversion Hnd as [|? ? Hx _]; subst. apply Hx.
      apply list_elem_of_here.
Defined.

(** ** Further properties of main *)



(** ** The rows of the result table *)

Lemma upcast_row (f0 f1 f2 f3 : bool) t g s v :
  zip_with (λ (fl : bool) v, if fl then to_float v else v) [f0; f1; f2; f3]
           [VStr t; VStr g; VStr s; v]
  = [VStr t; VStr g; VStr s; if f3 then to_float v else v].
Proof. by destruct f0, f1, f2. Qed.

Lemma DataFrame_rows tmp :
  tmp ≠ [] → Forall is_record tmp →
  df_data (DataFrame_of_records tmp) = table_row (value_is_float tmp) <$> tmp.
Proof.
  intros Hne H. unfold DataFrame_of_records.
  rewrite (keys_union_records tmp Hne H). cbn [df_data]. unfold upcast.
  set (body := (λ d : dict, (λ c, default (VFloat NaN) (dict_get d c))
                              <$> record_keys) <$> tmp).
  assert ((λ r : list pyval, default (VFloat NaN) (r !! 3)) <$> body
          = (λ r, cell_of r "value") <$> tmp) as Hcol.
  { unfold body. rewrite <- list_fmap_compose. by apply list_fmap_ext. }
  cbn [length record_keys seq fmap list_fmap]. rewrite Hcol.
  fold (value_is_float tmp). unfold body. rewrite <- list_fmap_compose.
  apply Forall_fmap_ext. eapply Forall_impl; [exact H|].
  intros r (t & g & s & v & ->). unfold compose.
  change ((λ c, default (VFloat NaN) (dict_get (record t g s v) c))
            <$> record_keys) with [VStr t; VStr g; VStr s; v].
  change (table_row (value_is_float tmp) (record t g s v))
    with [VStr t; VStr g; VStr s;
          if value_is_float tmp then to_float v else v].
  apply upcast_row.
Qed.

Lemma job_values_numeric (j : job) t :
  run_job j = Ok t →
  (let '(f, graph, dfc, g) := j in ∃ values, loc dfc g = Ok (Series values)) →
  Forall (λ r, is_numeric (cell_of r "value") = true) t
  ∧ existsb is_float ((λ r, cell_of r "value") <$> t) = true.
Proof.
  destruct j as [[[f graph] dfc] g]. simpl. intros Hj [values Hloc].
  apply gene_records_ok in Hj as (deg & sel & Hdeg & Hsel & ->).
  rewrite Hloc in Hsel. injection Hsel as <-.
  rewrite degree_value_total in Hdeg. injection Hdeg as <-.
  split.
  - repeat constructor. cbn. by destruct (graph !! g).
  - cbn. by destruct (graph !! g).
Qed.

(** When every gene symbol labels exactly one row of its count table, the
    value column of the result table is a float column: every value cell is
    a float, and the integer degree of a pathway_degree record is stored as
    the float of the same value. *)
Theorem value_column_float fs dir_list df :
  read_data fs dir_list = Ok df →
  Forall (λ j : job,
            let '(f, graph, dfc, g) := j in
            ∃ values, loc dfc g = Ok (Series values))
         (jobs fs dir_list) →
  Forall (λ row : list pyval, ∃ x, row !! 3 = Some (VFloat x)) (df_data df)
  ∧ ∃ tmp, read_records fs dir_list = Ok tmp
           ∧ df_data df
             = (λ r, [cell_of r "type"; cell_of r "gene"; cell_of r "source";
                      to_float (cell_of r "value")]) <$> tmp.
Proof.
  unfold read_data. intros (tmp & Htmp & [= <-])%bind_ok Hseries.
  destruct (read_records_jobs _ _ _ Htmp) as (triples & Hall & ->).
  assert (Forall (λ r, is_numeric (cell_of r "value") = true) (concat triples)
          ∧ (concat triples ≠ [] →
             existsb is_float ((λ r, cell_of r "value") <$> concat triples)
             = true)) as [Hnum Hfl].
  { clear Htmp. induction Hall as [|j t js ts Hj _ IH]; [by split|].
    inversion Hseries as [|? ? Hs Hss]; subst.
    destruct (job_values_numeric j t Hj Hs) as [Hn He].
    destruct (IH Hss) as [IHn _]. simpl. split.
    - by apply Forall_app.
    - intros _. rewrite fmap_app, existsb_app, He. done. }
  destruct (decide (concat triples = [])) as [Hnil|Hne].
  - rewrite Hnil in Htmp |- *. split; [constructor|]. by exists [].
  - pose proof (read_records_shape _ _ _ Htmp) as [Hrec _].
    assert (value_is_float (concat triples) = true) as Hvf.
    { unfold value_is_float. rewrite (Hfl Hne), andb_true_r.
      apply forallb_forall. intros v Hv%list_elem_of_In.
      apply list_elem_of_fmap in Hv as (r & -> & Hr).
      by apply (proj1 (Forall_forall _ _) Hnum). }
    rewrite (DataFrame_rows _ Hne Hrec), Hvf. split.
    + apply Forall_fmap. eapply Forall_impl; [exact Hnum|].
      intros r Hr. cbv beta in Hr.
      change (∃ x, Some (to_float (cell_of r "value")) = Some (VFloat x)).
      destruct (cell_of r "value"); simpl in Hr |- *;
        [discriminate Hr|by eexists|by eexists|discriminate Hr].
    + by exists (concat triples).
Qed.

Lemma value_column_float_witness :
  ∃ df, read_data sample_fs sample_dirs = Ok df
        ∧ (λ row : list pyval, row !! 3) <$> take 1 (df_data df)
          = [Some (VFloat (Num (of_Z 3)))].
Proof.
  assert (∃ df, read_data sample_fs sample_dirs = Ok df
                ∧ (λ row : list pyval, row !! 3) <$> take 1 (df_data df)
                  = [Some (VFloat (Num (of_Z 3)))]) as (df & Hdf & Hrow).
  { eexists. split; [vm_compute; reflexivity|]. reflexivity. }
  exists df. split; [done|].
  destruct (value_column_float sample_fs sample_dirs df Hdf) as [_ _];
    [|exact Hrow].
  set (js := jobs sample_fs sample_dirs). vm_compute in js. subst js.
  repeat (constructor; [hnf; eexists; vm_compute; reflexivity|]).
  constructor.
Defined.

(** ** The data behind the plots *)

Lemma split_str_source (t g : string) :
  Str.count " " t = 0 →
  ∃ ws, split_str " -- " (t ++ " -- " ++ g) = t :: ws.
Proof.
  unfold split_str. induction t as [|c t IH]; intros Hc.
  - simpl. destruct g; simpl; by eexists.
  - simpl in Hc. destruct (Ascii.eqb c " ") eqn:Ec; [discriminate Hc|].
    destruct (IH Hc) as [ws Hws].
    change (String c t ++ " -- " ++ g)%string
      with (String c (t ++ " -- " ++ g)).
    cbn [split_str_aux String.prefix].
    destruct (ascii_dec " " c) as [<-|_]; [by rewrite Ascii.eqb_refl in Ec|].
    rewrite Hws. by eexists.
Qed.

Lemma rows_of_type fl (type_ : string) js triples :
  Forall2 (λ j t, run_job j = Ok t) js triples →
  VStr type_ ∈ three_types →
  Forall2 (λ (j : job) (row : list pyval),
             let '(f, graph, dfc, g) := j in
             ∃ v, row = [VStr type_; VStr (gene f);
                         VStr ((if bool_decide (type_ = "pathway_degree")
                                then pathway f else treatment f)
                               ++ " -- " ++ g); v])
          js
          (filter (λ row, is_str type_ (default (VFloat NaN) (row !! 0)))
                  (table_row fl <$> concat triples)).
Proof.
  intros H Ht. induction H as [|j t js ts Hj _ IH]; [constructor|].
  destruct j as [[[f graph] dfc] g]. simpl in Hj.
  apply gene_records_ok in Hj as (deg & sel & _ & _ & ->).
  cbn [concat app]. rewrite !fmap_cons.
  apply list_elem_of_In in Ht. simpl in Ht.
  destruct Ht as [[= <-]|[[= <-]|[[= <-]|[]]]].
  - rewrite filter_cons_True by exact I.
    rewrite filter_cons_False by (intros []).
    rewrite filter_cons_False by (intros []).
    constructor; [|exact IH]. by eexists.
  - rewrite filter_cons_False by (intros []).
    rewrite filter_cons_True by exact I.
    rewrite filter_cons_False by (intros []).
    constructor; [|exact IH]. by eexists.
  - rewrite filter_cons_False by (intros []).
    rewrite filter_cons_False by (intros []).
    rewrite filter_cons_True by exact I.
    constructor; [|exact IH]. by eexists.
Qed.

Lemma run_table fs dir_list df :
  read_data fs dir_list = Ok df → dir_list ≠ [] →
  ∃ fl triples,
    Forall2 (λ j t, run_job j = Ok t) (jobs fs dir_list) triples
    ∧ df_columns df = record_keys
    ∧ df_data df = table_row fl <$> concat triples.
Proof.
  unfold read_data. intros (tmp & Htmp & [= <-])%bind_ok Hne.
  destruct dir_list as [|d ds]; [done|].
  pose proof (read_records_nonempty _ _ _ _ Htmp) as Hnil.
  pose proof (read_records_shape _ _ _ Htmp) as [Hrec _].
  destruct (read_records_jobs _ _ _ Htmp) as (triples & Hall & ->).
  exists (value_is_float (concat triples)), triples. split_and!.
  - exact Hall.
  - by apply DataFrame_row_width.
  - by apply DataFrame_rows.
Qed.

Lemma Forall2_fmap_eq {A B C} (Q : A → Prop) (P : A → B → Prop)
    (F : A → C) (G : B → C) l k :
  Forall Q l → Forall2 P l k → (∀ x y, Q x → P x y → G y = F x) →
  G <$> k = F <$> l.
Proof.
  intros HQ H HP. induction H as [|x y l k Hxy _ IH]; [done|].
  inversion HQ; subst. rewrite !fmap_cons. f_equal; [by apply HP|by apply IH].
Qed.

(** The table behind the first plot (line 73) has one row per gene symbol
    of the run, in the order of the run.  Its gene cell, the category on the
    x axis, is the whole gene segment of the directory, so the symbols of
    one directory share one category; its source cell names the pathway and
    the symbol. *)
Theorem degree_plot_data fs dir_list df :
  read_data fs dir_list = Ok df → dir_list ≠ [] →
  ∃ data,
    plot_data df "pathway_degree" false = Ok data
    ∧ df_columns data = ["type"; "gene"; "source"; "value"]
    ∧ length (df_data data) = total_gene_symbols dir_list
    ∧ (λ row : list pyval, (row !! 0, row !! 1, row !! 2)) <$> df_data data
      = (λ j : job,
           let '(f, graph, dfc, g) := j in
           (Some (VStr "pathway_degree"), Some (VStr (gene f)),
            Some (VStr (pathway f ++ " -- " ++ g)))) <$> jobs fs dir_list.
Proof.
  intros Hdf Hne.
  destruct (run_table _ _ _ Hdf Hne) as (fl & triples & Hall & Hcols & Hrows).
  pose proof (rows_of_type fl "pathway_degree" _ _ Hall) as Hsel.
  unfold plot_data. rewrite (filter_type_rows _ _ Hcols), Hrows. simpl.
  eexists. split; [reflexivity|]. cbn [df_columns df_data].
  split; [done|].
  assert ((λ row : list pyval, (row !! 0, row !! 1, row !! 2))
            <$> filter (λ row, is_str "pathway_degree"
                                 (default (VFloat NaN) (row !! 0)))
                       (table_row fl <$> concat triples)
          = (λ j : job,
               let '(f, graph, dfc, g) := j in
               (Some (VStr "pathway_degree"), Some (VStr (gene f)),
                Some (VStr (pathway f ++ " -- " ++ g)))) <$> jobs fs dir_list)
    as Hproj.
  { eapply Forall2_fmap_eq;
      [apply Forall_true; exact (λ _, I)|apply Hsel, list_elem_of_here|].
    intros [[[f graph] dfc] g] row _ [v ->]. reflexivity. }
  split; [|exact Hproj].
  apply (f_equal length) in Hproj. rewrite !length_fmap in Hproj.
  rewrite Hproj. unfold read_data in Hdf.
  apply bind_ok in Hdf as (tmp & Htmp & _). by eapply jobs_length.
Qed.

Lemma degree_plot_data_witness :
  ∃ df data,
    read_data sample_fs sample_dirs = Ok df
    ∧ plot_data df "pathway_degree" false = Ok data
    ∧ length (df_data data) = 4.
Proof.
  assert (∃ df, read_data sample_fs sample_dirs = Ok df) as [df Hdf]
    by (eexists; vm_compute; reflexivity).
  destruct (degree_plot_data sample_fs sample_dirs df Hdf)
    as (data & Hd & _ & Hlen & _); [discriminate|].
  exists df, data. split; [exact Hdf|]. split; [exact Hd|].
  rewrite Hlen. vm_compute. reflexivity.
Defined.

(** The tables behind the second and third plot (lines 88-90, 110-112)
    have one row per gene symbol of the run and a fifth column treatment,
    cut from the source cell at the first [" -- "].  When the treatment
    segment of every directory is free of spaces, that column gives back
    the treatment segment of the directory, which is what the hue of the
    plot groups by; the category on the x axis is again the whole gene
    segment. *)
Theorem hue_plot_data fs dir_list df (type_ : string) :
  read_data fs dir_list = Ok df → dir_list ≠ [] →
  type_ = "expression_count_mean" ∨ type_ = "expression_count_std" →
  Forall (λ j : job, let '(f, graph, dfc, g) := j in
                     Str.count " " (treatment f) = 0) (jobs fs dir_list) →
  ∃ data,
    plot_data df type_ true = Ok data
    ∧ df_columns data = ["type"; "gene"; "source"; "value"; "treatment"]
    ∧ length (df_data data) = total_gene_symbols dir_list
    ∧ (λ row : list pyval, (row !! 0, row !! 1, row !! 2, row !! 4))
        <$> df_data data
      = (λ j : job,
           let '(f, graph, dfc, g) := j in
           (Some (VStr type_), Some (VStr (gene f)),
            Some (VStr (treatment f ++ " -- " ++ g)),
            Some (VStr (treatment f)))) <$> jobs fs dir_list.
Proof.
  intros Hdf Hne Htype Hsp.
  destruct (run_table _ _ _ Hdf Hne) as (fl & triples & Hall & Hcols & Hrows).
  assert (VStr type_ ∈ three_types) as Hin.
  { destruct Htype as [-> | ->]; apply list_elem_of_In; simpl; auto. }
  assert (bool_decide (type_ = "pathway_degree") = false) as Hnd.
  { by destruct Htype as [-> | ->]. }
  pose proof (rows_of_type fl type_ _ _ Hall Hin) as Hsel.
  unfold plot_data. rewrite (filter_type_rows _ _ Hcols), Hrows.
  cbn [mbind result_bind bind]. rewrite assign_treatment_rows.
  eexists. split; [reflexivity|]. cbn [df_columns df_data].
  split; [done|].
  set (rows := filter _ _) in *.
  assert ((λ row : list pyval, (row !! 0, row !! 1, row !! 2, row !! 4))
            <$> ((λ row, row ++ [treatment_of_source
                                   (default (VFloat NaN) (row !! 2))])
                   <$> rows)
          = (λ j : job,
               let '(f, graph, dfc, g) := j in
               (Some (VStr type_), Some (VStr (gene f)),
                Some (VStr (treatment f ++ " -- " ++ g)),
                Some (VStr (treatment f)))) <$> jobs fs dir_list)
    as Hproj.
  { rewrite <- list_fmap_compose.
    eapply Forall2_fmap_eq; [exact Hsp|exact Hsel|].
    intros [[[f graph] dfc] g] row Ht [v ->]. rewrite Hnd.
    destruct (split_str_source (treatment f) g Ht) as [ws Hws].
    unfold compose. cbn [app lookup list_lookup default treatment_of_source].
    unfold id, treatment_of_source. by rewrite Hws. }
  split; [|exact Hproj].
  apply (f_equal length) in Hproj. rewrite !length_fmap in Hproj.
  rewrite length_fmap, Hproj. unfold read_data in Hdf.
  apply bind_ok in Hdf as (tmp & Htmp & _). by eapply jobs_length.
Qed.

Lemma hue_plot_data_witness :
  ∃ df data,
    read_data sample_fs sample_dirs = Ok df
    ∧ plot_data df "expression_count_std" true = Ok data
    ∧ (λ row : list pyval, row !! 4) <$> df_data data
      = [Some (VStr "1"); Some (VStr "1"); Some (VStr "1"); Some (VStr "2")].
Proof.
  assert (∃ df, read_data sample_fs sample_dirs = Ok df) as [df Hdf]
    by (eexists; vm_compute; reflexivity).
  destruct (hue_plot_data sample_fs sample_dirs df "expression_count_std" Hdf)
    as (data & Hd & _ & _ & Hrows); [discriminate|by right| |].
  - set (js := jobs sample_fs sample_dirs). vm_compute in js. subst js.
    repeat (constructor; [reflexivity|]). constructor.
  - exists df, data. split; [exact Hdf|]. split; [exact Hd|].
    apply (f_equal (fmap snd)) in Hrows.
    rewrite <- !list_fmap_compose in Hrows.
    etransitivity; [exact Hrows|]. vm_compute. reflexivity.
Defined.

(** ** The categories of the x axis *)

Lemma unique_skip seen (x : string) n l :
  x ∈ seen → unique seen (replicate n x ++ l) = unique seen l.
Proof.
  intros Hx. induction n as [|n IH]; [done|].
  simpl. by rewrite decide_True.
Qed.

Lemma unique_runs (lab : string → string) (n : string → nat) dl seen :
  Forall (λ d, n d ≠ 0) dl →
  unique seen (flat_map (λ d, replicate (n d) (lab d)) dl)
  = unique seen (lab <$> dl).
Proof.
  intros H. revert seen. induction H as [|d dl Hd _ IH]; intros seen; [done|].
  simpl. destruct (n d) as [|k]; [done|]. simpl.
  destruct (decide (lab d ∈ seen)) as [Hin|Hin].
  - rewrite (unique_skip _ _ _ _ Hin). apply IH.
  - f_equal. rewrite unique_skip by apply list_elem_of_here. apply IH.
Qed.

Lemma gene_cells f graph dfc gl gs :
  Forall2 (λ g grp, gene_records f graph dfc g = Ok grp) gl gs →
  (λ r, cell_of r "gene") <$> concat gs
  = replicate (3 * length gl) (VStr (gene f)).
Proof.
  induction 1 as [|g grp gl gs Hg _ IH]; [done|].
  apply gene_records_ok in Hg as (deg & sel & _ & _ & ->).
  cbn [concat app length]. rewrite !fmap_cons, IH.
  replace (3 * S (length gl)) with (S (S (S (3 * length gl)))) by lia.
  reflexivity.
Qed.

Lemma dir_gene_cells fs d grp :
  dir_records fs d = Ok grp →
  (λ r, cell_of r "gene") <$> grp
  = replicate (3 * gene_symbols d) (VStr (gene_label d))
  ∧ gene_symbols d ≠ 0.
Proof.
  intros (f & graph & dfc & gs & Hp & _ & _ & Hgs & ->)%dir_records_ok.
  unfold gene_symbols, gene_label. rewrite Hp. split; [|done].
  rewrite (gene_cells _ _ _ _ _ Hgs). f_equal. f_equal. apply split_length.
Qed.

(** The categories handed to natsorted for the x axis of every plot
    (lines 76, 95, 117).  The gene column repeats the gene segment of a
    directory three times for each of its gene symbols, so its distinct
    values are the distinct gene segments of the directory list, in order
    of first appearance: a directory naming several genes gives one
    category and not one per gene. *)
Theorem gene_categories fs dir_list df :
  read_data fs dir_list = Ok df → dir_list ≠ [] →
  ∃ genes,
    df_getitem df "gene" = Ok (VStr <$> genes)
    ∧ genes = flat_map (λ d, replicate (3 * gene_symbols d) (gene_label d))
                       dir_list
    ∧ unique [] genes = unique [] (gene_label <$> dir_list).
Proof.
  intros Hdf Hne.
  destruct (run_table _ _ _ Hdf Hne) as (fl & triples & _ & Hcols & _).
  unfold read_data in Hdf. apply bind_ok in Hdf as (tmp & Htmp & [= <-]).
  pose proof (read_records_shape _ _ _ Htmp) as [Hrec _].
  assert (tmp ≠ []) as Hnil.
  { destruct dir_list; [done|]. by eapply read_records_nonempty. }
  eexists. split; [|split; [reflexivity|]].
  - unfold df_getitem. rewrite Hcols. cbn [list_find record_keys].
    rewrite decide_False by discriminate. rewrite decide_True by reflexivity.
    cbn [fmap option_fmap option_map prod_map fst snd].
    rewrite (DataFrame_rows _ Hnil Hrec), <- list_fmap_compose. f_equal.
    change (_ ∘ table_row (value_is_float tmp))
      with (λ r : dict, cell_of r "gene").
    apply read_records_dirs in Htmp as (groups & H & ->). clear -H.
    induction H as [|d grp ds groups Hd _ IH]; [done|].
    cbn [concat flat_map]. rewrite !fmap_app, IH. f_equal.
    apply dir_gene_cells in Hd as [Hd _].
    rewrite fmap_replicate. exact Hd.
  - apply (unique_runs gene_label (λ d, 3 * gene_symbols d)).
    apply read_records_dirs in Htmp as (groups & H & _). clear -H.
    induction H as [|d grp ds groups Hd _ IH]; constructor; [|exact IH].
    apply dir_gene_cells in Hd as [_ Hd]. lia.
Qed.

Lemma gene_categories_witness :
  ∃ df genes,
    read_data sample_fs sample_dirs = Ok df
    ∧ df_getitem df "gene" = Ok (VStr <$> genes)
    ∧ unique [] genes = ["GeneX,GeneY"; "GeneX"; "GeneZ"].
Proof.
  assert (∃ df, read_data sample_fs sample_dirs = Ok df) as [df Hdf]
    by (eexists; vm_compute; reflexivity).
  destruct (gene_categories sample_fs sample_dirs df Hdf)
    as (genes & Hg & _ & Hu); [discriminate|].
  exists df, genes. split; [exact Hdf|]. split; [exact Hg|].
  rewrite Hu. vm_compute. reflexivity.
Defined.
